(** * Token price service (main.go): quote cache, scrape pipeline, handler

    A shallow embedding of the cached version of [main.go]:
    - [float64] is IEEE-754 binary64, through the Standard Library's
      executable specification [SpecFloat] (53-bit mantissa, round to
      nearest even);
    - [time.Time] is an instant in nanoseconds, [time.Duration] a number of
      nanoseconds;
    - Go maps are finite maps ([gmap]); the three-level cache is a map of
      maps of maps, updated functionally;
    - the headless browser and the clock are the environment of a request
      ([World]); the Go library functions the pipeline calls
      ([strings.TrimSpace], [strconv.ParseFloat], [time.Format]) are the
      fields of the class [GoRuntime]. *)

From Stdlib Require Import ZArith String Ascii List Lia.
From Stdlib Require Import Floats.SpecFloat.
From stdpp Require Import gmap strings.

Local Open Scope string_scope.
Local Open Scope Z_scope.

(* ===================================================================== *)
(** * Part I: definitions                                                 *)
(* ===================================================================== *)

(** ** float64 arithmetic *)

Module Float64.

Definition prec : Z := 53.
Definition emax : Z := 1024.

Definition float64 : Type := spec_float.

Definition zero : float64 := S754_zero false.

(** [x * y] and [x / y] on float64 operands. *)
Definition mul : float64 -> float64 -> float64 := SFmul prec emax.
Definition div : float64 -> float64 -> float64 := SFdiv prec emax.

(** The float64 nearest to an integer (a Go constant such as [1e8]). *)
Definition of_Z (n : Z) : float64 := binary_normalize prec emax n 0 false.

(** The float64 nearest to the fraction [m / d]: the division of
    [SpecFloat] applied to the two integers, rounded once. *)
Definition ratio (m d : positive) : float64 :=
  SFdiv prec emax (S754_finite false m 0) (S754_finite false d 0).

(** [math.Floor]: the greatest integer value not above [x]; zeros,
    infinities and NaN are returned as they are. *)
Definition Floor (x : float64) : float64 :=
  match x with
  | S754_finite s m e =>
      if 0 <=? e then x
      else binary_normalize prec emax
             (Z.shiftr (cond_Zopp s (Zpos m)) (- e)) 0 s
  | _ => x
  end.

(** [math.Pow10]: table lookups [pow10postab32[n/32] * pow10tab[n%32]]
    for [0 <= n <= 308], [pow10negtab32[-n/32] / pow10tab[-n%32]] for
    [-323 <= n <= 0], and 0 or +Inf outside; every table entry is the
    float64 nearest to its power of ten. *)
Definition Pow10 (n : Z) : float64 :=
  if (0 <=? n) && (n <=? 308) then
    mul (of_Z (10 ^ (32 * (n / 32)))) (of_Z (10 ^ (n mod 32)))
  else if (-323 <=? n) && (n <=? 0) then
    div (ratio 1 (Z.to_pos (10 ^ (32 * (- n / 32)))))
        (of_Z (10 ^ (- n mod 32)))
  else if n <? 0 then zero
  else S754_infinity false.

End Float64.

Export Float64.

(** ** time *)

Definition Time : Type := Z.
Definition Duration : Type := Z.

Definition Nanosecond : Duration := 1.
Definition Second : Duration := 1000000000 * Nanosecond.
Definition Minute : Duration := 60 * Second.
Definition Hour : Duration := 60 * Minute.

(** [t.After(u)]: [t] is strictly later than [u]. *)
Definition Time_After (t u : Time) : bool := u <? t.

(** [t.Add(d)]. *)
Definition Time_Add (t : Time) (d : Duration) : Time := t + d.

(** ** constants and the address registry *)

Definition MON_ADDRESS : string := "0x0000000000000000000000000000000000000000".
Definition DAK_ADDRESS : string := "0x0F0BDEbF0F83cD1EE3974779Bcb7315f9808c714".
Definition LBTC_ADDRESS : string := "0x73a58b73018c1a417534232529b57b99132b13D2".
Definition USDC_ADDRESS : string := "0xf817257fed379853cDe0fa4F97AB987181B1E5Ea".
Definition USDT_ADDRESS : string := "0xf817257fed379853cDe0fa4F97AB987181B1E5Ea".
Definition WETH_ADDRESS : string := "0xB5a30b0FDc5EA94A52fDc42e3E9760Cb8449Fb37".
Definition WBTC_ADDRESS : string := "0xcf5a6076cfa32686c0Df13aBaDa2b40dec133F1d".
Definition CACHE_TTL : Duration := 2 * Hour.

Definition tokenAddresses : gmap string string :=
  list_to_map
    [ ("mon", MON_ADDRESS);
      ("wmon", MON_ADDRESS);
      ("dak", DAK_ADDRESS);
      ("lbtc", LBTC_ADDRESS);
      ("usdc", USDC_ADDRESS);
      ("usdt", USDT_ADDRESS);
      ("eth", WETH_ADDRESS);
      ("wbtc", WBTC_ADDRESS) ].

(** ** the quote *)

Record AmountToken : Type := {
  Amount : float64;
  Token : string
}.

Record Result : Type := {
  Input : AmountToken;
  Output : AmountToken;
  ExchangeRate : float64;
  Timestamp : string
}.

(** [Result{}], the zero value. *)
Definition Result_zero : Result :=
  {| Input := {| Amount := zero; Token := "" |};
     Output := {| Amount := zero; Token := "" |};
     ExchangeRate := zero;
     Timestamp := "" |}.

(** ** the cache *)

Record CacheEntry : Type := {
  CacheEntry_Result : Result;
  ExpiresAt : Time
}.

(** The mutex is left out: the model runs one method at a time. *)
Record TokenPairCache : Type := {
  cache : gmap string (gmap string (gmap string CacheEntry))
}.

Definition NewTokenPairCache : TokenPairCache := {| cache := ∅ |}.

(** [c.Get(inputToken, outputToken, amount)], with the instant read by
    [time.Now()] as [now]. *)
Definition TokenPairCache_Get (c : TokenPairCache) (now : Time)
    (inputToken outputToken amount : string) : Result * bool :=
  match cache c !! inputToken with
  | None => (Result_zero, false)
  | Some byOutput =>
      match byOutput !! outputToken with
      | None => (Result_zero, false)
      | Some byAmount =>
          match byAmount !! amount with
          | None => (Result_zero, false)
          | Some entry =>
              if Time_After now (ExpiresAt entry) then (Result_zero, false)
              else (CacheEntry_Result entry, true)
          end
      end
  end.

(** [c.Set(inputToken, outputToken, amount, result)], with the instant read
    by [time.Now()] as [now]. A missing level is made first; the entry is
    then assigned. *)
Definition TokenPairCache_Set (c : TokenPairCache) (now : Time)
    (inputToken outputToken amount : string) (result : Result)
    : TokenPairCache :=
  let m1 :=
    match cache c !! inputToken with
    | Some _ => cache c
    | None => <[inputToken := ∅]> (cache c)
    end in
  let byOutput := m1 !!! inputToken in
  let byOutput1 :=
    match byOutput !! outputToken with
    | Some _ => byOutput
    | None => <[outputToken := ∅]> byOutput
    end in
  let byAmount := byOutput1 !!! outputToken in
  let entry :=
    {| CacheEntry_Result := result;
       ExpiresAt := Time_Add now CACHE_TTL |} in
  {| cache :=
       <[inputToken := <[outputToken := <[amount := entry]> byAmount]> byOutput1]> m1 |}.

(** The entry physically stored under a key triple, expired or not. *)
Definition entryAt (c : TokenPairCache) (inputToken outputToken amount : string)
    : option CacheEntry :=
  byOutput ← cache c !! inputToken;
  byAmount ← byOutput !! outputToken;
  byAmount !! amount.

(** ** the Go library functions of the pipeline *)

(** A Go [error], through the text of [err.Error()]. *)
Definition error : Type := string.

(** A Go result pair [(value, err)]: [err == nil] is [Ok]. *)
Inductive outcome (A : Type) : Type :=
  | Ok (a : A)
  | Err (err : error).

Arguments Ok {A} a.
Arguments Err {A} err.

(** [strings.TrimSpace], [strconv.ParseFloat(s, 64)] and
    [t.Format(time.RFC3339)] belong to the Go library, not to this
    program: the pipeline is defined over any implementation of them. *)
Class GoRuntime : Type := {
  strings_TrimSpace : string -> string;
  strconv_ParseFloat : string -> outcome float64;
  time_Format_RFC3339 : Time -> string
}.

(** ** the browser session and the clock *)

(** What the Go code sees of one [chromedp.Run]: an error of any action (or
    the 30-second deadline), or the value of the first amount input, the
    value the primary script gives for the output, and what the fallback
    script would give when it is evaluated. *)
Inductive Scrape : Type :=
  | RunFailed (err : error)
  | Scraped (inputValue outputValue : string) (fallback : outcome string).

(** The environment of one request: the browser (from the target URL and
    the amount typed to what is scraped) and the instants [time.Now()]
    reads in [Get], in the result's timestamp and in [Set]. *)
Record World : Type := {
  browser : string -> string -> Scrape;
  now_Get : Time;
  now_Stamp : Time;
  now_Set : Time
}.

(** ** fetchTokenPrice *)

(** The [chromedp.ActionFunc] of the run: the fallback probe. *)
Definition fallbackProbe (outputValue : string) (fallback : outcome string)
    : string :=
  if String.eqb outputValue "0" || String.eqb outputValue "" then
    match fallback with
    | Ok result => if negb (String.eqb result "") then result else outputValue
    | Err _ => outputValue
    end
  else outputValue.

(** The [switch outputToken] that sets [decimalPlaces]. *)
Definition decimalPlaces (outputToken : string) : Z :=
  if String.eqb outputToken "lbtc" then 8
  else if String.eqb outputToken "usdc" then 2
  else if String.eqb outputToken "usdt" then 2
  else if String.eqb outputToken "eth" then 5
  else if String.eqb outputToken "wbtc" then 8
  else 2.

(** [factor := math.Pow10(decimalPlaces)] and
    [math.Floor(outputAmount*factor) / factor]. *)
Definition truncateOutput (outputToken : string) (outputAmount : float64)
    : float64 :=
  let factor := Pow10 (decimalPlaces outputToken) in
  div (Floor (mul outputAmount factor)) factor.

Definition fetchTokenPrice `{GoRuntime} (w : World)
    (inputToken outputToken amount targetURL : string) : outcome Result :=
  match browser w targetURL amount with
  | RunFailed err => Err err
  | Scraped inputValue outputValue0 fallback =>
      let outputValue := fallbackProbe outputValue0 fallback in
      let inputValue := strings_TrimSpace inputValue in
      let outputValue := strings_TrimSpace outputValue in
      match strconv_ParseFloat inputValue with
      | Err err => Err err
      | Ok inputAmount =>
          match strconv_ParseFloat outputValue with
          | Err err => Err err
          | Ok outputAmount =>
              let outputAmount := truncateOutput outputToken outputAmount in
              let exchangeRate := div outputAmount inputAmount in
              Ok {| Input := {| Amount := inputAmount; Token := inputToken |};
                    Output := {| Amount := outputAmount; Token := outputToken |};
                    ExchangeRate := exchangeRate;
                    Timestamp := time_Format_RFC3339 (now_Stamp w) |}
          end
      end
  end.

(** ** handleTokenPrice *)

Definition StatusOK : Z := 200.
Definition StatusBadRequest : Z := 400.
Definition StatusInternalServerError : Z := 500.

(** The JSON body: [gin.H{error: msg}], a [Result], or nothing at all. *)
Inductive Body : Type :=
  | ErrorJSON (msg : string)
  | ResultJSON (r : Result)
  | EmptyBody.

Record Response : Type := {
  status : Z;
  body : Body
}.

(** A float64 that is an infinity or NaN. *)
Definition notFinite (x : float64) : bool :=
  match x with
  | S754_infinity _ | S754_nan => true
  | _ => false
  end.

(** [json.Marshal] refuses a value that holds an infinity or NaN; a
    [Result] has three float64 fields. *)
Definition jsonEncodable (r : Result) : bool :=
  negb (notFinite (Amount (Input r)))
  && negb (notFinite (Amount (Output r)))
  && negb (notFinite (ExchangeRate r)).

(** [c.JSON(code, result)]: the status is set first; when the encoder
    refuses the quote nothing is written after it, and the response goes
    out with that status and an empty body. *)
Definition JSON_Result (code : Z) (r : Result) : Response :=
  {| status := code;
     body := if jsonEncodable r then ResultJSON r else EmptyBody |}.

(** [c.Query(key)]: the value of the query parameter, the empty string when
    the request has none. The query is the map from each key to its first
    value. *)
Definition Query (q : gmap string string) (key : string) : string :=
  default "" (q !! key).

(** [fmt.Sprintf] of the swap page's URL. *)
Definition targetURL_of (fromAddress toAddress : string) : string :=
  "https://kuru.io/swap?from=" +:+ fromAddress +:+ "&to=" +:+ toAddress.

(** The handler on the global cache [c]: the response written and the cache
    afterwards. The two log lines are left out. On a miss the quote is
    stored before it is encoded. *)
Definition handleTokenPrice `{GoRuntime} (c : TokenPairCache) (w : World)
    (q : gmap string string) : Response * TokenPairCache :=
  let inputToken := Query q "input" in
  let outputToken := Query q "output" in
  let amount := Query q "amount" in
  if String.eqb inputToken "" || String.eqb outputToken ""
     || String.eqb amount "" then
    ({| status := StatusBadRequest;
        body := ErrorJSON "input, output, and amount parameters are required" |},
     c)
  else
    match tokenAddresses !! inputToken with
    | None =>
        ({| status := StatusBadRequest;
            body := ErrorJSON ("unsupported input token: " +:+ inputToken) |},
         c)
    | Some fromAddress =>
        match tokenAddresses !! outputToken with
        | None =>
            ({| status := StatusBadRequest;
                body := ErrorJSON ("unsupported output token: " +:+ outputToken) |},
             c)
        | Some toAddress =>
            let '(cachedResult, found) :=
              TokenPairCache_Get c (now_Get w) inputToken outputToken amount in
            if found then
              (JSON_Result StatusOK cachedResult, c)
            else
              let targetURL := targetURL_of fromAddress toAddress in
              match fetchTokenPrice w inputToken outputToken amount targetURL with
              | Err err =>
                  ({| status := StatusInternalServerError;
                      body := ErrorJSON err |},
                   c)
              | Ok result =>
                  (JSON_Result StatusOK result,
                   TokenPairCache_Set c (now_Set w)
                     inputToken outputToken amount result)
              end
        end
    end.

(** The caches the server can hold: the one made at start-up, and the cache
    left by any request on such a cache. *)
Inductive reachable `{GoRuntime} : TokenPairCache -> Prop :=
  | reachable_start : reachable NewTokenPairCache
  | reachable_request c w q :
      reachable c -> reachable (handleTokenPrice c w q).2.

(** ** an executable Go runtime for plain inputs

    One implementation of [GoRuntime], to run the pipeline on concrete
    requests: ASCII white space, plain decimal literals (an optional sign,
    digits, an optional point and digits) and UTC timestamps counted from
    1970-01-01. The Go functions accept more (Unicode spaces; exponents,
    hexadecimal literals, infinities and NaN; local time zones). *)

Definition isSpace (a : ascii) : bool :=
  let n := Z.of_nat (nat_of_ascii a) in
  (n =? 32) || ((9 <=? n) && (n <=? 13)).

Fixpoint trimLeft (s : string) : string :=
  match s with
  | String a s' => if isSpace a then trimLeft s' else s
  | EmptyString => EmptyString
  end.

Fixpoint trimRight (s : string) : string :=
  match s with
  | EmptyString => EmptyString
  | String a s' =>
      match trimRight s' with
      | EmptyString => if isSpace a then EmptyString else String a EmptyString
      | t => String a t
      end
  end.

Definition TrimSpace_ascii (s : string) : string := trimRight (trimLeft s).

Definition digitValue (a : ascii) : option Z :=
  let n := Z.of_nat (nat_of_ascii a) in
  if (48 <=? n) && (n <=? 57) then Some (n - 48) else None.

(** Reads a run of digits after the mantissa [acc]: the mantissa, the number
    of digits read and the rest of the string. *)
Fixpoint readDigits (s : string) (acc n : Z) : Z * Z * string :=
  match s with
  | String a s' =>
      match digitValue a with
      | Some d => readDigits s' (10 * acc + d) (n + 1)
      | None => (acc, n, s)
      end
  | EmptyString => (acc, n, s)
  end.

Definition quote : string := String (ascii_of_nat 34) EmptyString.

Definition NumError (s reason : string) : error :=
  "strconv.ParseFloat: parsing " +:+ quote +:+ s +:+ quote +:+ ": " +:+ reason.

(** The float64 nearest to the decimal literal, as [strconv.ParseFloat]
    gives it; a literal beyond the largest float64 is a range error. *)
Definition ParseFloat_plain (s : string) : outcome float64 :=
  let '(neg, digits) :=
    match s with
    | String "-" r => (true, r)
    | String "+" r => (false, r)
    | _ => (false, s)
    end in
  let '(mi, ni, rest) := readDigits digits 0 0 in
  let '(m, nf, rest) :=
    match rest with
    | String "." r => readDigits r mi 0
    | _ => (mi, 0, rest)
    end in
  if (ni + nf =? 0) || negb (String.eqb rest "") then
    Err (NumError s "invalid syntax")
  else
    match m with
    | Zpos p =>
        match ratio p (Z.to_pos (10 ^ nf)) with
        | S754_infinity _ => Err (NumError s "value out of range")
        | x => Ok (if neg then SFopp x else x)
        end
    | _ => Ok (S754_zero neg)
    end.

Definition digitChar (d : Z) : ascii := ascii_of_nat (Z.to_nat (48 + d)).

(** [n] in decimal on at least [width] digits ([n] not negative). *)
Fixpoint decimalDigits (width : nat) (n : Z) (acc : string) : string :=
  match width with
  | O => acc
  | S width' => decimalDigits width' (n / 10) (String (digitChar (n mod 10)) acc)
  end.

(** The civil date of a day number counted from 1970-01-01. *)
Definition civilFromDays (days : Z) : Z * Z * Z :=
  let z := days + 719468 in
  let era := z / 146097 in
  let doe := z - era * 146097 in
  let yoe := (doe - doe / 1460 + doe / 36524 - doe / 146096) / 365 in
  let doy := doe - (365 * yoe + yoe / 4 - yoe / 100) in
  let mp := (5 * doy + 2) / 153 in
  let d := doy - (153 * mp + 2) / 5 + 1 in
  let m := if mp <? 10 then mp + 3 else mp - 9 in
  let y := yoe + era * 400 + (if m <=? 2 then 1 else 0) in
  (y, m, d).

Definition Format_RFC3339_UTC (t : Time) : string :=
  let secs := t / Second in
  let '(y, m, d) := civilFromDays (secs / 86400) in
  let sod := secs mod 86400 in
  decimalDigits 4 y "-" +:+ decimalDigits 2 m "-" +:+ decimalDigits 2 d "T"
  +:+ decimalDigits 2 (sod / 3600) ":" +:+ decimalDigits 2 (sod / 60 mod 60) ":"
  +:+ decimalDigits 2 (sod mod 60) "Z".

Definition plainRuntime : GoRuntime :=
  {| strings_TrimSpace := TrimSpace_ascii;
     strconv_ParseFloat := ParseFloat_plain;
     time_Format_RFC3339 := Format_RFC3339_UTC |}.

(** A page that shows [outputValue] for every swap, with no fallback
    element, at the instant [now]. *)
Definition stubWorld (outputValue : string) (now : Time) : World :=
  {| browser := fun _ amount =>
       Scraped amount outputValue (Err "exception: TypeError");
     now_Get := now;
     now_Stamp := now;
     now_Set := now |}.

(** The query [?input=i&output=o&amount=a]. *)
Definition query3 (i o a : string) : gmap string string :=
  list_to_map [("input", i); ("output", o); ("amount", a)].

(** ** the specification's reading of [Get], and sample data *)

(** [Get] as the specification words it: an entry whose expiry instant is
    at or before the current time counts as absent. *)
Definition Get_spec (c : TokenPairCache) (now : Time)
    (inputToken outputToken amount : string) : Result * bool :=
  match entryAt c inputToken outputToken amount with
  | None => (Result_zero, false)
  | Some entry =>
      if ExpiresAt entry <=? now then (Result_zero, false)
      else (CacheEntry_Result entry, true)
  end.

(** [floor (x * 10^d)] on the exact value of a finite float64 [x]. *)
Definition exactFloorScaled (d : Z) (x : float64) : option Z :=
  match x with
  | S754_zero _ => Some 0
  | S754_finite s m e =>
      Some (if 0 <=? e then cond_Zopp s (Zpos m) * 2 ^ e * 10 ^ d
            else Z.shiftr (cond_Zopp s (Zpos m) * 10 ^ d) (- e))
  | _ => None
  end.

(** The truncation as the specification describes it: the exact value of
    [x] cut to [d] decimal places, that is the integer [floor (x * 10^d)]
    divided by [10^d], the quotient rounded to float64. *)
Definition truncate_spec (d : Z) (x : float64) : float64 :=
  match x with
  | S754_finite _ _ _ =>
      match exactFloorScaled d x with
      | Some n => div (of_Z n) (of_Z (10 ^ d))
      | None => x
      end
  | _ => x
  end.

(** The float64 of a decimal literal with [k] digits after the point:
    0.123456789 is [decimal 123456789 9]. *)
Definition decimal (digits : positive) (k : Z) : float64 :=
  ratio digits (Z.to_pos (10 ^ k)).

(** A quote of 0.0005 eth for 1 usdc. *)
Definition sampleQuote : Result :=
  {| Input := {| Amount := of_Z 1; Token := "usdc" |};
     Output := {| Amount := decimal 5 4; Token := "eth" |};
     ExchangeRate := decimal 5 4;
     Timestamp := "2026-10-30T20:51:15Z" |}.

(** A browser whose run fails with [err] (a deadline, a selector that never
    shows), at the instant [now]. *)
Definition failingWorld (err : error) (now : Time) : World :=
  {| browser := fun _ _ => RunFailed err;
     now_Get := now;
     now_Stamp := now;
     now_Set := now |}.

(** Every stored entry carries the symbols of the key it is stored under. *)
Definition labelled (c : TokenPairCache) : Prop :=
  forall i o a entry,
    entryAt c i o a = Some entry ->
    Token (Input (CacheEntry_Result entry)) = i
    /\ Token (Output (CacheEntry_Result entry)) = o.

(** The instant of the sample requests: 2026-10-30T20:51:15Z. *)
Definition sampleNow : Time := 1793393475 * Second.

(** The cache after the request [?input=usdc&output=eth&amount=1] on a
    fresh server whose page shows 0.0005. *)
Definition cacheAfterUsdc : TokenPairCache :=
  (@handleTokenPrice plainRuntime NewTokenPairCache
     (stubWorld "0.0005" sampleNow) (query3 "usdc" "eth" "1")).2.

(** ** the handler before the cache was added

    The first version of [main.go] (kept in the source file ahead of the
    cached one) has the same registry and the same [fetchTokenPrice], and a
    handler that validates, fetches and answers, with no cache. *)
Definition handleTokenPrice_uncached `{GoRuntime} (w : World)
    (q : gmap string string) : Response :=
  let inputToken := Query q "input" in
  let outputToken := Query q "output" in
  let amount := Query q "amount" in
  if String.eqb inputToken "" || String.eqb outputToken ""
     || String.eqb amount "" then
    {| status := StatusBadRequest;
       body := ErrorJSON "input, output, and amount parameters are required" |}
  else
    match tokenAddresses !! inputToken with
    | None =>
        {| status := StatusBadRequest;
           body := ErrorJSON ("unsupported input token: " +:+ inputToken) |}
    | Some fromAddress =>
        match tokenAddresses !! outputToken with
        | None =>
            {| status := StatusBadRequest;
               body := ErrorJSON ("unsupported output token: " +:+ outputToken) |}
        | Some toAddress =>
            let targetURL := targetURL_of fromAddress toAddress in
            match fetchTokenPrice w inputToken outputToken amount targetURL with
            | Err err =>
                {| status := StatusInternalServerError; body := ErrorJSON err |}
            | Ok result => JSON_Result StatusOK result
            end
        end
    end.

(** ** reading the nested maps *)

(** [c.cache[inputToken]] and [c.cache[inputToken][outputToken]] as Go reads
    them: a missing key gives the nil map, which reads as empty. *)
Definition level2 (c : TokenPairCache) (inputToken : string)
    : gmap string (gmap string CacheEntry) :=
  default ∅ (cache c !! inputToken).

Definition level3 (c : TokenPairCache) (inputToken outputToken : string)
    : gmap string CacheEntry :=
  default ∅ (level2 c inputToken !! outputToken).

(** The symbols of the registry, in the order of the source. *)
Definition registeredSymbols : list string :=
  ["mon"; "wmon"; "dak"; "lbtc"; "usdc"; "usdt"; "eth"; "wbtc"].

(** A page that reads back 0 for the amount typed and shows [outputValue]. *)
Definition zeroInputWorld (outputValue : string) (now : Time) : World :=
  {| browser := fun _ _ => Scraped "0" outputValue (Err "exception: TypeError");
     now_Get := now;
     now_Stamp := now;
     now_Set := now |}.

(** A page whose primary script gives [primary] for the output and whose
    fallback script gives [fallback]; the input reads back as typed. *)
Definition fallbackWorld (primary fallback : string) (now : Time) : World :=
  {| browser := fun _ amount => Scraped amount primary (Ok fallback);
     now_Get := now;
     now_Stamp := now;
     now_Set := now |}.

(** A browser whose run fails with the URL it was sent to as the error
    text: it shows which page a request drives. *)
Definition echoWorld (now : Time) : World :=
  {| browser := fun targetURL _ => RunFailed targetURL;
     now_Get := now;
     now_Stamp := now;
     now_Set := now |}.

(* ===================================================================== *)
(** * Part II: theorems                                                   *)
(* ===================================================================== *)

(** ** the float64 model on known values *)

(** 0.1 is 0x1.999999999999ap-4, and 0.1 * 3 is 0.30000000000000004. *)
Example float64_tenth :
  decimal 1 1 = S754_finite false 7205759403792794 (-56)
  /\ mul (decimal 1 1) (of_Z 3) = decimal 30000000000000004 17
  /\ mul (decimal 1 1) (of_Z 3) <> decimal 3 1.
Proof. repeat split; vm_compute; [reflexivity..|discriminate]. Qed.

Example Floor_values :
  Floor (decimal 25 1) = of_Z 2
  /\ Floor (SFopp (decimal 25 1)) = of_Z (-3)
  /\ Floor (decimal 5 1) = S754_zero false
  /\ Floor (SFopp (decimal 5 1)) = of_Z (-1)
  /\ Floor (of_Z 7) = of_Z 7
  /\ Floor (S754_zero true) = S754_zero true
  /\ Floor (S754_infinity false) = S754_infinity false
  /\ Floor S754_nan = S754_nan.
Proof. repeat split; vm_compute; reflexivity. Qed.

Example Pow10_values :
  Pow10 2 = of_Z 100 /\ Pow10 5 = of_Z 100000 /\ Pow10 8 = of_Z 100000000
  /\ Pow10 (-2) = decimal 1 2 /\ Pow10 309 = S754_infinity false.
Proof. repeat split; vm_compute; reflexivity. Qed.

Example plainRuntime_values :
  TrimSpace_ascii "  1.50 " = "1.50"
  /\ ParseFloat_plain "0.123456789" = Ok (decimal 123456789 9)
  /\ ParseFloat_plain "-0" = Ok (S754_zero true)
  /\ ParseFloat_plain "1." = Ok (of_Z 1)
  /\ ParseFloat_plain "." = Err (NumError "." "invalid syntax")
  /\ ParseFloat_plain "" = Err (NumError "" "invalid syntax")
  /\ ParseFloat_plain "1,5" = Err (NumError "1,5" "invalid syntax")
  /\ Format_RFC3339_UTC sampleNow = "2026-10-30T20:51:15Z"
  /\ Format_RFC3339_UTC 0 = "1970-01-01T00:00:00Z"
  /\ Format_RFC3339_UTC (951782400 * Second) = "2000-02-29T00:00:00Z".
Proof. repeat split; vm_compute; reflexivity. Qed.

(** ** the cache *)

Section CacheFacts.

Implicit Types (c : TokenPairCache) (now : Time) (r : Result).
Implicit Types (i o a : string).

(** [Get] reads the stored entry and compares its expiry with the clock. *)
Lemma Get_entryAt c now i o a :
  TokenPairCache_Get c now i o a =
    match entryAt c i o a with
    | None => (Result_zero, false)
    | Some entry =>
        if Time_After now (ExpiresAt entry) then (Result_zero, false)
        else (CacheEntry_Result entry, true)
    end.
Proof.
  unfold TokenPairCache_Get, entryAt.
  destruct (cache c !! i) as [byOutput|]; simpl; [|reflexivity].
  destruct (byOutput !! o) as [byAmount|]; simpl; reflexivity.
Qed.

Lemma entryAt_Set_same c now i o a r :
  entryAt (TokenPairCache_Set c now i o a r) i o a =
    Some {| CacheEntry_Result := r; ExpiresAt := Time_Add now CACHE_TTL |}.
Proof.
  unfold entryAt, TokenPairCache_Set; simpl.
  rewrite lookup_insert_eq; simpl.
  rewrite lookup_insert_eq; simpl.
  apply lookup_insert_eq.
Qed.

(** The first level after [Set]: only the input symbol's slot changes. *)
Lemma Set_level1_other c now i o a r i' :
  i' ≠ i ->
  cache (TokenPairCache_Set c now i o a r) !! i' = cache c !! i'.
Proof.
  intros Hne. unfold TokenPairCache_Set; simpl.
  rewrite lookup_insert_ne by congruence.
  destruct (cache c !! i); [reflexivity|].
  rewrite lookup_insert_ne by congruence. reflexivity.
Qed.

Lemma entryAt_Set_other c now i o a r i' o' a' :
  (i', o', a') ≠ (i, o, a) ->
  entryAt (TokenPairCache_Set c now i o a r) i' o' a' = entryAt c i' o' a'.
Proof.
  intros Hne. unfold entryAt.
  destruct (decide (i' = i)) as [->|Hi].
  2:{ rewrite Set_level1_other by assumption. reflexivity. }
  unfold TokenPairCache_Set; simpl.
  rewrite lookup_insert_eq; simpl.
  destruct (cache c !! i) as [byOutput|] eqn:Hc; simpl.
  - rewrite (lookup_total_correct _ _ _ Hc).
    destruct (decide (o' = o)) as [->|Ho].
    + rewrite lookup_insert_eq; simpl.
      destruct (byOutput !! o) as [byAmount|] eqn:Hb; simpl.
      * rewrite (lookup_total_correct _ _ _ Hb).
        rewrite lookup_insert_ne by congruence. reflexivity.
      * rewrite (lookup_total_correct _ _ _ (lookup_insert_eq _ _ _)).
        rewrite lookup_insert_ne by congruence. apply lookup_empty.
    + rewrite lookup_insert_ne by congruence.
      destruct (byOutput !! o); [reflexivity|].
      rewrite lookup_insert_ne by congruence. reflexivity.
  - rewrite (lookup_total_correct _ _ _ (lookup_insert_eq _ _ _)).
    rewrite lookup_empty.
    destruct (decide (o' = o)) as [->|Ho].
    + rewrite lookup_insert_eq; simpl.
      rewrite (lookup_total_correct _ _ _ (lookup_insert_eq _ _ _)).
      rewrite lookup_insert_ne by congruence. apply lookup_empty.
    + rewrite lookup_insert_ne by congruence.
      rewrite lookup_insert_ne by congruence.
      rewrite lookup_empty. reflexivity.
Qed.

Lemma Get_Set_other c now now' i o a r i' o' a' :
  (i', o', a') ≠ (i, o, a) ->
  TokenPairCache_Get (TokenPairCache_Set c now i o a r) now' i' o' a' =
    TokenPairCache_Get c now' i' o' a'.
Proof.
  intros Hne. rewrite !Get_entryAt, entryAt_Set_other by assumption.
  reflexivity.
Qed.

Lemma CACHE_TTL_value : CACHE_TTL = 7200000000000.
Proof. reflexivity. Qed.

End CacheFacts.

(** C1, as the code has it. [Get] returns found=false if no entry exists for
    the exact key triple, or if the entry's expiry instant is strictly
    before the current time; otherwise, also at the expiry instant itself,
    it returns the stored quote with found=true. *)
Theorem Get_found_through_expiry (c : TokenPairCache) (now : Time)
    (inputToken outputToken amount : string) :
  TokenPairCache_Get c now inputToken outputToken amount =
    match entryAt c inputToken outputToken amount with
    | None => (Result_zero, false)
    | Some entry =>
        if ExpiresAt entry <? now then (Result_zero, false)
        else (CacheEntry_Result entry, true)
    end.
Proof. apply Get_entryAt. Qed.

(** C1 as worded fails at the expiry instant: the entry written at instant 0
    expires at 2 h; read at exactly 2 h, its expiry is at (so at or before)
    the current time, and [Get] still returns it with found=true, where the
    specification's reading gives found=false. *)
Lemma Get_at_expiry_instant_still_found :
  let c := TokenPairCache_Set NewTokenPairCache 0 "usdc" "eth" "1" sampleQuote in
  entryAt c "usdc" "eth" "1" =
    Some {| CacheEntry_Result := sampleQuote; ExpiresAt := 7200000000000 |}
  /\ TokenPairCache_Get c 7200000000000 "usdc" "eth" "1" = (sampleQuote, true)
  /\ Get_spec c 7200000000000 "usdc" "eth" "1" = (Result_zero, false)
  /\ TokenPairCache_Get c 7200000000000 "usdc" "eth" "1"
       <> Get_spec c 7200000000000 "usdc" "eth" "1".
Proof.
  intros c.
  assert (He : entryAt c "usdc" "eth" "1" =
    Some {| CacheEntry_Result := sampleQuote; ExpiresAt := 7200000000000 |})
    by apply entryAt_Set_same.
  assert (Hg : TokenPairCache_Get c 7200000000000 "usdc" "eth" "1"
               = (sampleQuote, true))
    by (rewrite Get_entryAt, He; reflexivity).
  assert (Hs : Get_spec c 7200000000000 "usdc" "eth" "1" = (Result_zero, false))
    by (unfold Get_spec; rewrite He; reflexivity).
  repeat split; try assumption.
  rewrite Hg, Hs. intros H. inversion H.
Qed.

(** C3. [Set] overwrites the entry of its key triple whatever the cache
    held, with expiry = now + 2 hours; afterwards both intermediate levels
    of the triple exist; and nothing else moves: the other slots of the
    first level, the other slots of the triple's second level, and every
    other entry are as before. *)
Theorem Set_overwrites_with_TTL (c : TokenPairCache) (now : Time)
    (inputToken outputToken amount : string) (result : Result) :
  let c' := TokenPairCache_Set c now inputToken outputToken amount result in
  entryAt c' inputToken outputToken amount =
    Some {| CacheEntry_Result := result;
            ExpiresAt := now + 2 * (60 * (60 * 1000000000)) |}
  /\ (exists byOutput, cache c' !! inputToken = Some byOutput
        /\ is_Some (byOutput !! outputToken))
  /\ (forall i', i' <> inputToken -> cache c' !! i' = cache c !! i')
  /\ (forall o', o' <> outputToken ->
        (cache c' !!! inputToken) !! o' = (cache c !!! inputToken) !! o')
  /\ (forall i' o' a', (i', o', a') <> (inputToken, outputToken, amount) ->
        entryAt c' i' o' a' = entryAt c i' o' a').
Proof.
  intros c'. subst c'. repeat split.
  - apply entryAt_Set_same.
  - unfold TokenPairCache_Set; simpl. eexists. split.
    + apply lookup_insert_eq.
    + rewrite lookup_insert_eq. eauto.
  - intros i' Hi. apply Set_level1_other, Hi.
  - intros o' Ho.
    assert (Hlvl : forall m : gmap string (gmap string CacheEntry),
      match m !! outputToken with
      | Some _ => m
      | None => <[outputToken := ∅]> m
      end !! o' = m !! o').
    { intros m. destruct (m !! outputToken); [reflexivity|].
      apply lookup_insert_ne. congruence. }
    unfold TokenPairCache_Set; cbn [cache].
    erewrite lookup_total_correct by apply lookup_insert_eq.
    rewrite lookup_insert_ne by congruence.
    rewrite Hlvl.
    destruct (cache c !! inputToken) as [byOutput|] eqn:Hc.
    + reflexivity.
    + erewrite lookup_total_correct by apply lookup_insert_eq.
      rewrite lookup_total_alt, Hc. reflexivity.
  - intros i' o' a' Hne. apply entryAt_Set_other, Hne.
Qed.

(** C4. [Set] followed by [Get] with the same key triple, at any instant up
    to the expiry just stamped (the instant of the [Set] included), returns
    the stored quote with found=true. *)
Theorem Get_after_Set (c : TokenPairCache) (now now' : Time)
    (inputToken outputToken amount : string) (result : Result) :
  now' <= Time_Add now CACHE_TTL ->
  TokenPairCache_Get
    (TokenPairCache_Set c now inputToken outputToken amount result)
    now' inputToken outputToken amount = (result, true).
Proof.
  intros Hnow. rewrite Get_entryAt, entryAt_Set_same; simpl.
  unfold Time_After.
  destruct (Z.ltb_spec (Time_Add now CACHE_TTL) now') as [Hlt|_]; [lia|].
  reflexivity.
Qed.

(** C4 on a fresh cache, read at the instant of the [Set]. *)
Lemma Get_after_Set_witness :
  1793393475000000000 <= Time_Add 1793393475000000000 CACHE_TTL
  /\ TokenPairCache_Get
       (TokenPairCache_Set NewTokenPairCache 1793393475000000000
          "usdc" "eth" "1" sampleQuote)
       1793393475000000000 "usdc" "eth" "1" = (sampleQuote, true).
Proof.
  split; [vm_compute; discriminate|].
  apply (Get_after_Set NewTokenPairCache 1793393475000000000
           1793393475000000000 "usdc" "eth" "1" sampleQuote).
  vm_compute; discriminate.
Defined.

(** C5. The amount is part of the key as the string submitted: an entry
    stored under amount 1.0 is never seen by a [Get] under amount 1 with the
    same symbols, which answers as if the [Set] had not happened; on a
    fresh cache, Get(usdc, eth, 1) after Set(usdc, eth, 1.0) is a miss. *)
Theorem amount_key_not_normalized (c : TokenPairCache) (now now' : Time)
    (inputToken outputToken : string) (result : Result) :
  TokenPairCache_Get
    (TokenPairCache_Set c now inputToken outputToken "1.0" result)
    now' inputToken outputToken "1"
  = TokenPairCache_Get c now' inputToken outputToken "1"
  /\ TokenPairCache_Get
       (TokenPairCache_Set NewTokenPairCache now "usdc" "eth" "1.0" result)
       now' "usdc" "eth" "1"
     = (Result_zero, false).
Proof.
  split.
  - apply Get_Set_other. intros H. inversion H.
  - rewrite Get_Set_other by (intros H; inversion H). reflexivity.
Qed.

(** ** the scrape pipeline *)

(** The probe on its own: with a primary read that is empty or the literal
    0, a fallback value that is not empty is taken; in every other case,
    a failing fallback script included, the primary read is kept. *)
Lemma fallbackProbe_policy (primary fallback : string) :
  fallbackProbe primary (Ok fallback) =
    (if decide ((primary = "" \/ primary = "0") /\ fallback <> "")
     then fallback else primary)
  /\ (forall err, fallbackProbe primary (Err err) = primary).
Proof.
  unfold fallbackProbe. split.
  - destruct (String.eqb_spec primary "0") as [H0|H0];
      destruct (String.eqb_spec primary "") as [He|He];
      destruct (String.eqb_spec fallback "") as [Hf|Hf]; simpl;
      case_decide; try reflexivity; try tauto; try congruence.
  - intros err. destruct (_ || _); reflexivity.
Qed.

Lemma decimalPlaces_table (outputToken : string) :
  decimalPlaces outputToken =
    if decide (outputToken = "lbtc" \/ outputToken = "wbtc") then 8
    else if decide (outputToken = "eth") then 5
    else 2.
Proof.
  unfold decimalPlaces.
  destruct (String.eqb_spec outputToken "lbtc") as [->|H1];
    [reflexivity|].
  destruct (String.eqb_spec outputToken "usdc") as [->|H2];
    [reflexivity|].
  destruct (String.eqb_spec outputToken "usdt") as [->|H3];
    [reflexivity|].
  destruct (String.eqb_spec outputToken "eth") as [->|H4];
    [reflexivity|].
  destruct (String.eqb_spec outputToken "wbtc") as [->|H5];
    [reflexivity|].
  repeat case_decide; try reflexivity; tauto.
Qed.

Lemma decimalPlaces_cases (outputToken : string) :
  decimalPlaces outputToken = 8 \/ decimalPlaces outputToken = 5
  \/ decimalPlaces outputToken = 2.
Proof.
  rewrite decimalPlaces_table. repeat case_decide; tauto.
Qed.

(** [math.Pow10] is exact on the three precisions in use. *)
Lemma Pow10_decimalPlaces (outputToken : string) :
  Pow10 (decimalPlaces outputToken) = of_Z (10 ^ decimalPlaces outputToken).
Proof.
  destruct (decimalPlaces_cases outputToken) as [->|[->| ->]];
    vm_compute; reflexivity.
Qed.

(** The truncation step by itself. The number of decimal places is 8 for
    lbtc and wbtc, 5 for eth and 2 for usdc, usdt and every other symbol,
    and the output amount is Floor(amount * 10^d) / 10^d in float64
    arithmetic, each operation rounded to nearest. Whenever the float64
    product has the integer part of the exact product, this is the exact
    truncation to [d] decimal places; raw 0.123456789 on an 8-decimal token
    yields 0.12345678 and raw 99.999 on a 2-decimal token yields 99.99. *)
Lemma truncateOutput_binary64 (outputToken : string) (x : float64) :
  let d := if decide (outputToken = "lbtc" \/ outputToken = "wbtc") then 8
           else if decide (outputToken = "eth") then 5
           else 2 in
  decimalPlaces outputToken = d
  /\ truncateOutput outputToken x =
       div (Floor (mul x (of_Z (10 ^ d)))) (of_Z (10 ^ d))
  /\ (forall s m e n,
        x = S754_finite s m e ->
        exactFloorScaled d x = Some n ->
        Floor (mul x (of_Z (10 ^ d))) = of_Z n ->
        truncateOutput outputToken x = truncate_spec d x)
  /\ truncateOutput "lbtc" (decimal 123456789 9) = decimal 12345678 8
  /\ truncateOutput "wbtc" (decimal 123456789 9) = decimal 12345678 8
  /\ truncateOutput "usdc" (decimal 99999 3) = decimal 9999 2
  /\ truncateOutput "usdt" (decimal 99999 3) = decimal 9999 2
  /\ truncateOutput "mon" (decimal 99999 3) = decimal 9999 2.
Proof.
  intros d.
  assert (Hd : decimalPlaces outputToken = d) by apply decimalPlaces_table.
  assert (Hf : truncateOutput outputToken x =
               div (Floor (mul x (of_Z (10 ^ d)))) (of_Z (10 ^ d))).
  { unfold truncateOutput. rewrite Pow10_decimalPlaces, Hd. reflexivity. }
  split; [exact Hd|]. split; [exact Hf|]. split.
  - intros s m e n Hx Hn Hfl. rewrite Hf, Hfl.
    unfold truncate_spec. rewrite Hn, Hx. reflexivity.
  - repeat split; vm_compute; reflexivity.
Qed.

(** The exactness condition holds at the specification's example. *)
Lemma truncateOutput_exact_example :
  truncateOutput "lbtc" (S754_finite false 8895999182988127 (-56)) =
    truncate_spec 8 (S754_finite false 8895999182988127 (-56)).
Proof.
  apply (proj1 (proj2 (proj2
           (truncateOutput_binary64 "lbtc"
              (S754_finite false 8895999182988127 (-56)))))
         false 8895999182988127%positive (-56) 12345678).
  - reflexivity.
  - vm_compute. reflexivity.
  - vm_compute. reflexivity.
Defined.

(** The truncation step at the float64 0.049999999999999996 (the literal
    0.049999999999999996 parses to it), on the 2-decimal token usdc: it
    comes out as 0.05, above the raw value, where truncation gives 0.04,
    because the product with 100 rounds to 5 before Floor is taken. *)
Lemma truncateOutput_rounds_up :
  let raw := S754_finite false 7205759403792793 (-57) in
  ParseFloat_plain "0.049999999999999996" = Ok raw
  /\ truncateOutput "usdc" raw = decimal 5 2
  /\ truncate_spec 2 raw = decimal 4 2
  /\ truncateOutput "usdc" raw <> truncate_spec 2 raw
  /\ SFltb raw (truncateOutput "usdc" raw) = true
  /\ Amount <$> (Output <$>
       match @fetchTokenPrice plainRuntime
               (stubWorld "0.049999999999999996" sampleNow)
               "mon" "usdc" "1" (targetURL_of MON_ADDRESS USDC_ADDRESS) with
       | Ok r => Some r
       | Err _ => None
       end) = Some (decimal 5 2).
Proof.
  intros raw. repeat split; try (vm_compute; reflexivity).
  vm_compute. intros H. inversion H.
Qed.

Section Pipeline.

Context `{GoRuntime}.

(** What a successful fetch returns, traced back to the scrape. *)
Lemma fetchTokenPrice_Ok (w : World)
    (inputToken outputToken amount targetURL : string) (r : Result) :
  fetchTokenPrice w inputToken outputToken amount targetURL = Ok r ->
  exists inputValue outputValue fallback inputAmount outputAmount,
    browser w targetURL amount = Scraped inputValue outputValue fallback
    /\ strconv_ParseFloat (strings_TrimSpace inputValue) = Ok inputAmount
    /\ strconv_ParseFloat
         (strings_TrimSpace (fallbackProbe outputValue fallback))
       = Ok outputAmount
    /\ r = {| Input := {| Amount := inputAmount; Token := inputToken |};
              Output := {| Amount := truncateOutput outputToken outputAmount;
                           Token := outputToken |};
              ExchangeRate :=
                div (truncateOutput outputToken outputAmount) inputAmount;
              Timestamp := time_Format_RFC3339 (now_Stamp w) |}.
Proof.
  unfold fetchTokenPrice.
  destruct (browser w targetURL amount)
    as [err|inputValue outputValue fallback]; [discriminate|].
  destruct (strconv_ParseFloat (strings_TrimSpace inputValue))
    as [inputAmount|err] eqn:Hin; [|discriminate].
  destruct (strconv_ParseFloat
              (strings_TrimSpace (fallbackProbe outputValue fallback)))
    as [outputAmount|err] eqn:Hout; [|discriminate].
  intros Hr. injection Hr as <-.
  exists inputValue, outputValue, fallback, inputAmount, outputAmount.
  repeat split; assumption.
Qed.

Lemma fetchTokenPrice_tokens (w : World)
    (inputToken outputToken amount targetURL : string) (r : Result) :
  fetchTokenPrice w inputToken outputToken amount targetURL = Ok r ->
  Token (Input r) = inputToken /\ Token (Output r) = outputToken.
Proof.
  intros Hr. apply fetchTokenPrice_Ok in Hr.
  destruct Hr as (? & ? & ? & ? & ? & _ & _ & _ & ->). split; reflexivity.
Qed.

(** C9. In the pipeline, when the fallback script gives a string: the
    output that is parsed and truncated is the fallback value exactly when
    the primary read is empty or the literal 0 and the fallback value is
    not empty; in every other case it is the primary read. The whole
    result of the fetch is that of the read chosen so. *)
Theorem fetchTokenPrice_fallback_policy (w : World)
    (inputToken outputToken amount targetURL : string)
    (inputValue primary fallback : string) :
  browser w targetURL amount = Scraped inputValue primary (Ok fallback) ->
  let chosen :=
    if decide ((primary = "" \/ primary = "0") /\ fallback <> "")
    then fallback else primary in
  fetchTokenPrice w inputToken outputToken amount targetURL =
    match strconv_ParseFloat (strings_TrimSpace inputValue) with
    | Err err => Err err
    | Ok inputAmount =>
        match strconv_ParseFloat (strings_TrimSpace chosen) with
        | Err err => Err err
        | Ok outputAmount =>
            Ok {| Input := {| Amount := inputAmount; Token := inputToken |};
                  Output :=
                    {| Amount := truncateOutput outputToken outputAmount;
                       Token := outputToken |};
                  ExchangeRate :=
                    div (truncateOutput outputToken outputAmount) inputAmount;
                  Timestamp := time_Format_RFC3339 (now_Stamp w) |}
        end
    end.
Proof.
  intros Hb chosen. subst chosen.
  unfold fetchTokenPrice. rewrite Hb.
  rewrite (proj1 (fallbackProbe_policy primary fallback)).
  reflexivity.
Qed.

(** C2 at the failing input. For every 2-decimal output token, when the
    output read parses to the float64 0.049999999999999996, the fetch
    succeeds with the output amount 0.05: above the raw value, where
    flooring to 2 decimal places gives 0.04. The product with 100 is
    rounded to 5 before [math.Floor] is taken. *)
Theorem fetchTokenPrice_rounds_up (w : World)
    (inputToken outputToken amount targetURL : string)
    (inputValue outputValue : string) (fallback : outcome string)
    (inputAmount : float64) :
  let raw := S754_finite false 7205759403792793 (-57) in
  outputToken <> "lbtc" -> outputToken <> "wbtc" -> outputToken <> "eth" ->
  browser w targetURL amount = Scraped inputValue outputValue fallback ->
  strconv_ParseFloat (strings_TrimSpace inputValue) = Ok inputAmount ->
  strconv_ParseFloat (strings_TrimSpace (fallbackProbe outputValue fallback))
  = Ok raw ->
  exists r,
    fetchTokenPrice w inputToken outputToken amount targetURL = Ok r
    /\ Amount (Output r) = decimal 5 2
    /\ SFltb raw (Amount (Output r)) = true
    /\ truncate_spec 2 raw = decimal 4 2
    /\ Amount (Output r) <> truncate_spec 2 raw.
Proof.
  intros raw H1 H2 H3 Hb Hin Hout.
  assert (Hd : decimalPlaces outputToken = 2).
  { rewrite decimalPlaces_table. repeat case_decide; try reflexivity; tauto. }
  assert (Ht : truncateOutput outputToken raw = decimal 5 2).
  { unfold truncateOutput. rewrite Hd. vm_compute. reflexivity. }
  eexists. split.
  { unfold fetchTokenPrice. rewrite Hb, Hin, Hout. reflexivity. }
  cbn [Output Amount]. rewrite Ht.
  repeat split; try (vm_compute; reflexivity).
  vm_compute. discriminate.
Qed.

(** C6. On every successful fetch whose parsed input amount is not zero,
    the input amount of the result is the parsed read-back input, the
    output amount is the truncated parsed output, and exchange_rate is the
    float64 quotient of the second by the first. (The equation holds for
    a zero input too: the float64 division then gives an infinity or
    NaN.) *)
Theorem exchange_rate_is_output_over_input (w : World)
    (inputToken outputToken amount targetURL : string) (r : Result) :
  fetchTokenPrice w inputToken outputToken amount targetURL = Ok r ->
  (forall s, Amount (Input r) <> S754_zero s) ->
  ExchangeRate r = div (Amount (Output r)) (Amount (Input r))
  /\ exists inputValue outputValue fallback outputAmount,
       browser w targetURL amount = Scraped inputValue outputValue fallback
       /\ strconv_ParseFloat (strings_TrimSpace inputValue)
          = Ok (Amount (Input r))
       /\ strconv_ParseFloat
            (strings_TrimSpace (fallbackProbe outputValue fallback))
          = Ok outputAmount
       /\ Amount (Output r) = truncateOutput outputToken outputAmount.
Proof.
  intros Hr _. apply fetchTokenPrice_Ok in Hr.
  destruct Hr as (iv & ov & fb & ia & oa & Hb & Hi & Ho & ->); simpl.
  split; [reflexivity|].
  exists iv, ov, fb, oa. repeat split; assumption.
Qed.

End Pipeline.

(** C6 on the request usdc to eth of amount 1, the page showing 0.0005. *)
Lemma exchange_rate_is_output_over_input_witness :
  @fetchTokenPrice plainRuntime (stubWorld "0.0005" 1793393475000000000)
    "usdc" "eth" "1" (targetURL_of USDC_ADDRESS WETH_ADDRESS) = Ok sampleQuote
  /\ (forall s, Amount (Input sampleQuote) <> S754_zero s)
  /\ ExchangeRate sampleQuote =
       div (Amount (Output sampleQuote)) (Amount (Input sampleQuote)).
Proof.
  assert (Hf : @fetchTokenPrice plainRuntime
                 (stubWorld "0.0005" 1793393475000000000)
                 "usdc" "eth" "1" (targetURL_of USDC_ADDRESS WETH_ADDRESS)
               = Ok sampleQuote) by (vm_compute; reflexivity).
  assert (Hz : forall s, Amount (Input sampleQuote) <> S754_zero s)
    by (intros s; vm_compute; discriminate).
  split; [exact Hf|]. split; [exact Hz|].
  exact (proj1 (@exchange_rate_is_output_over_input plainRuntime
                  (stubWorld "0.0005" 1793393475000000000)
                  "usdc" "eth" "1" (targetURL_of USDC_ADDRESS WETH_ADDRESS)
                  sampleQuote Hf Hz)).
Defined.

(** C9 on a page whose primary script gives 0 and whose fallback script
    gives 0.0005: the quote is the one of 0.0005. *)
Lemma fetchTokenPrice_fallback_policy_witness :
  @fetchTokenPrice plainRuntime (fallbackWorld "0" "0.0005" sampleNow)
    "usdc" "eth" "1" (targetURL_of USDC_ADDRESS WETH_ADDRESS) = Ok sampleQuote.
Proof.
  rewrite (@fetchTokenPrice_fallback_policy plainRuntime
             (fallbackWorld "0" "0.0005" sampleNow) "usdc" "eth" "1"
             (targetURL_of USDC_ADDRESS WETH_ADDRESS) "1" "0" "0.0005"
             eq_refl).
  vm_compute. reflexivity.
Defined.

(** C2 on the request mon to usdc of amount 1, the page showing
    0.049999999999999996. *)
Lemma fetchTokenPrice_rounds_up_witness :
  exists r,
    @fetchTokenPrice plainRuntime
      (stubWorld "0.049999999999999996" sampleNow)
      "mon" "usdc" "1" (targetURL_of MON_ADDRESS USDC_ADDRESS) = Ok r
    /\ Amount (Output r) = decimal 5 2
    /\ SFltb (S754_finite false 7205759403792793 (-57)) (Amount (Output r))
       = true
    /\ truncate_spec 2 (S754_finite false 7205759403792793 (-57))
       = decimal 4 2
    /\ Amount (Output r)
       <> truncate_spec 2 (S754_finite false 7205759403792793 (-57)).
Proof.
  apply (@fetchTokenPrice_rounds_up plainRuntime
           (stubWorld "0.049999999999999996" sampleNow)
           "mon" "usdc" "1" (targetURL_of MON_ADDRESS USDC_ADDRESS)
           "1" "0.049999999999999996" (Err "exception: TypeError")
           (of_Z 1)).
  - discriminate.
  - discriminate.
  - discriminate.
  - reflexivity.
  - vm_compute. reflexivity.
  - vm_compute. reflexivity.
Defined.

(** ** the handler *)

Lemma Query_missing (q : gmap string string) (key : string) :
  q !! key = None -> Query q key = "".
Proof. intros Hq. unfold Query. rewrite Hq. reflexivity. Qed.

Lemma registry_no_empty_symbol : tokenAddresses !! "" = None.
Proof. vm_compute. reflexivity. Qed.

(** Splits a goal about [handleTokenPrice] along the handler's branches. *)
Ltac handler_branches :=
  unfold handleTokenPrice;
  repeat match goal with
    | |- context [String.eqb ?x ""] =>
        destruct (String.eqb_spec x ""); cbn [orb]
    end;
  repeat match goal with
    | |- context [tokenAddresses !! ?x] =>
        let Hreg := fresh "Hreg" in
        destruct (tokenAddresses !! x) eqn:Hreg
    end;
  repeat match goal with
    | |- context [TokenPairCache_Get ?c ?t ?i ?o ?a] =>
        let Hget := fresh "Hget" in
        destruct (TokenPairCache_Get c t i o a) as [? []] eqn:Hget
    end;
  repeat match goal with
    | |- context [fetchTokenPrice ?w ?i ?o ?a ?u] =>
        let Hfetch := fresh "Hfetch" in
        destruct (fetchTokenPrice w i o a u) as [?result|?err] eqn:Hfetch
    end;
  unfold JSON_Result;
  cbn [fst snd status body].

Section Handler.

Context `{GoRuntime}.

(** C7. The response is a 400 exactly when one of input, output, amount is
    missing (the query gives the empty string for it) or one of the two
    symbols is not in the registry, and a 400 carries an error message; a
    request without one of the three parameters is a 400 whatever the
    others are; for an unknown symbol the message ends with that
    symbol. *)
Theorem handler_400_iff (c : TokenPairCache) (w : World)
    (q : gmap string string) :
  let resp := (handleTokenPrice c w q).1 in
  let inputToken := Query q "input" in
  let outputToken := Query q "output" in
  let amount := Query q "amount" in
  (status resp = 400 <->
     inputToken = "" \/ outputToken = "" \/ amount = ""
     \/ tokenAddresses !! inputToken = None
     \/ tokenAddresses !! outputToken = None)
  /\ (status resp = 400 -> exists msg, body resp = ErrorJSON msg)
  /\ (q !! "input" = None \/ q !! "output" = None \/ q !! "amount" = None ->
      status resp = 400)
  /\ (inputToken <> "" -> outputToken <> "" -> amount <> "" ->
      tokenAddresses !! inputToken = None ->
      resp = {| status := 400;
                body := ErrorJSON ("unsupported input token: " +:+ inputToken) |})
  /\ (inputToken <> "" -> outputToken <> "" -> amount <> "" ->
      is_Some (tokenAddresses !! inputToken) ->
      tokenAddresses !! outputToken = None ->
      resp = {| status := 400;
                body := ErrorJSON ("unsupported output token: " +:+ outputToken) |}).
Proof.
  intros resp inputToken outputToken amount.
  subst resp inputToken outputToken amount.
  repeat split.
  - handler_branches; intros Hs; try discriminate Hs; tauto.
  - intros Hor. revert Hor. handler_branches; try reflexivity;
      intros Hor; exfalso;
      repeat match goal with
        | Hd : _ \/ _ |- _ => destruct Hd
        end; congruence.
  - handler_branches; intros Hs; try discriminate Hs; eauto.
  - intros Hmiss.
    assert (Hempty : Query q "input" = "" \/ Query q "output" = ""
                     \/ Query q "amount" = "")
      by (destruct Hmiss as [Hm|[Hm|Hm]];
          apply Query_missing in Hm; tauto).
    revert Hempty. clear Hmiss.
    handler_branches; try reflexivity; intros Hor; exfalso; tauto.
  - handler_branches; intros; try reflexivity; try congruence.
  - handler_branches; intros Hi Ho Ha [x Hx] Hn; try reflexivity;
      try congruence.
Qed.

(** C8. When the request reaches the Fetcher and the Fetcher fails, the
    response is a 500 whose error text is the failure's message, and the
    cache is the one before the request. On any request at all, the cache
    changes only by the [Set] of a result the Fetcher has returned for
    that request. *)
Theorem handler_fetch_failure (c : TokenPairCache) (w : World)
    (q : gmap string string) (fromAddress toAddress : string) (err : error) :
  let inputToken := Query q "input" in
  let outputToken := Query q "output" in
  let amount := Query q "amount" in
  inputToken <> "" -> outputToken <> "" -> amount <> "" ->
  tokenAddresses !! inputToken = Some fromAddress ->
  tokenAddresses !! outputToken = Some toAddress ->
  (TokenPairCache_Get c (now_Get w) inputToken outputToken amount).2 = false ->
  fetchTokenPrice w inputToken outputToken amount
    (targetURL_of fromAddress toAddress) = Err err ->
  handleTokenPrice c w q =
    ({| status := 500; body := ErrorJSON err |}, c)
  /\ (forall c0 w0 q0,
        (handleTokenPrice c0 w0 q0).2 <> c0 ->
        exists from0 to0 result,
          tokenAddresses !! Query q0 "input" = Some from0
          /\ tokenAddresses !! Query q0 "output" = Some to0
          /\ fetchTokenPrice w0 (Query q0 "input") (Query q0 "output")
               (Query q0 "amount") (targetURL_of from0 to0) = Ok result
          /\ handleTokenPrice c0 w0 q0 =
               (JSON_Result 200 result,
                TokenPairCache_Set c0 (now_Set w0) (Query q0 "input")
                  (Query q0 "output") (Query q0 "amount") result)).
Proof.
  intros inputToken outputToken amount Hi Ho Ha Hfrom Hto Hmiss Hfail.
  subst inputToken outputToken amount. split.
  - revert Hmiss. unfold handleTokenPrice.
    destruct (String.eqb_spec (Query q "input") ""); [congruence|].
    destruct (String.eqb_spec (Query q "output") ""); [congruence|].
    destruct (String.eqb_spec (Query q "amount") ""); [congruence|].
    cbn [orb]. rewrite Hfrom, Hto.
    destruct (TokenPairCache_Get _ _ _ _ _) as [cached found].
    cbn [snd]. intros ->. rewrite Hfail. reflexivity.
  - intros c0 w0 q0. handler_branches; intros Hne; try congruence.
    eexists _, _, _. repeat split; try eassumption; reflexivity.
Qed.

Lemma handler_preserves_labelled (c : TokenPairCache) (w : World)
    (q : gmap string string) :
  labelled c -> labelled (handleTokenPrice c w q).2.
Proof.
  intros Hc. handler_branches; try exact Hc.
  intros i o a entry.
  destruct (decide ((i, o, a) =
              (Query q "input", Query q "output", Query q "amount")))
    as [Heq|Hne].
  - injection Heq as -> -> ->. rewrite entryAt_Set_same.
    intros He. injection He as <-. cbn [CacheEntry_Result].
    eapply fetchTokenPrice_tokens. eassumption.
  - rewrite entryAt_Set_other by exact Hne. apply Hc.
Qed.

Lemma reachable_labelled (c : TokenPairCache) : reachable c -> labelled c.
Proof.
  induction 1 as [|c w q Hreach IH].
  - intros i o a entry. unfold entryAt, NewTokenPairCache; simpl.
    rewrite lookup_empty. discriminate.
  - apply handler_preserves_labelled, IH.
Qed.

(** What the handler does once validation has passed and the cache has no
    live entry: it runs the fetch on the swap page of the two registry
    addresses. *)
Lemma handler_miss_fetches (c : TokenPairCache) (w : World)
    (q : gmap string string) (fromAddress toAddress : string) :
  tokenAddresses !! Query q "input" = Some fromAddress ->
  tokenAddresses !! Query q "output" = Some toAddress ->
  Query q "amount" <> "" ->
  (TokenPairCache_Get c (now_Get w)
     (Query q "input") (Query q "output") (Query q "amount")).2 = false ->
  handleTokenPrice c w q =
    match fetchTokenPrice w (Query q "input") (Query q "output")
            (Query q "amount")
            ("https://kuru.io/swap?from=" +:+ fromAddress
             +:+ "&to=" +:+ toAddress) with
    | Err err => ({| status := 500; body := ErrorJSON err |}, c)
    | Ok result =>
        (JSON_Result 200 result,
         TokenPairCache_Set c (now_Set w) (Query q "input")
           (Query q "output") (Query q "amount") result)
    end.
Proof.
  intros Hfrom Hto Ha Hmiss.
  pose proof registry_no_empty_symbol as Hempty.
  revert Hmiss. unfold handleTokenPrice.
  destruct (String.eqb_spec (Query q "input") ""); [congruence|].
  destruct (String.eqb_spec (Query q "output") ""); [congruence|].
  destruct (String.eqb_spec (Query q "amount") ""); [congruence|].
  cbn [orb]. rewrite Hfrom, Hto.
  destruct (TokenPairCache_Get _ _ _ _ _) as [cached found].
  cbn [snd]. intros ->. reflexivity.
Qed.

(** C10. usdt has the address of usdc and wmon the address of mon, and the
    page a request drives is the swap page of the two registry addresses:
    two requests whose symbols resolve to the same addresses, a symbol and
    its alias, send the browser to one and the same URL. Yet on every
    cache the server can hold, the quote of a 200 response has for token
    fields the two symbols as submitted, it is the quote stored under the
    submitted triple afterwards, and the body sent, when there is one, is
    that quote; and an entry set under one symbol is never seen by a [Get]
    under another, aliased or not. *)
Theorem aliases_share_address_not_entries (c c' : TokenPairCache)
    (w : World) (q : gmap string string) (resp : Response) :
  reachable c ->
  handleTokenPrice c w q = (resp, c') ->
  status resp = 200 ->
  (tokenAddresses !! "usdt" = tokenAddresses !! "usdc"
   /\ tokenAddresses !! "usdc" = Some USDC_ADDRESS
   /\ tokenAddresses !! "wmon" = tokenAddresses !! "mon"
   /\ tokenAddresses !! "mon" = Some MON_ADDRESS)
  /\ (forall c1 c2 w0 q1 q2 fromAddress toAddress,
        tokenAddresses !! Query q1 "input" = Some fromAddress ->
        tokenAddresses !! Query q2 "input" = Some fromAddress ->
        tokenAddresses !! Query q1 "output" = Some toAddress ->
        tokenAddresses !! Query q2 "output" = Some toAddress ->
        Query q1 "amount" <> "" ->
        Query q2 "amount" <> "" ->
        (TokenPairCache_Get c1 (now_Get w0) (Query q1 "input")
           (Query q1 "output") (Query q1 "amount")).2 = false ->
        (TokenPairCache_Get c2 (now_Get w0) (Query q2 "input")
           (Query q2 "output") (Query q2 "amount")).2 = false ->
        let targetURL :=
          "https://kuru.io/swap?from=" +:+ fromAddress
          +:+ "&to=" +:+ toAddress in
        handleTokenPrice c1 w0 q1 =
          match fetchTokenPrice w0 (Query q1 "input") (Query q1 "output")
                  (Query q1 "amount") targetURL with
          | Err err => ({| status := 500; body := ErrorJSON err |}, c1)
          | Ok result =>
              (JSON_Result 200 result,
               TokenPairCache_Set c1 (now_Set w0) (Query q1 "input")
                 (Query q1 "output") (Query q1 "amount") result)
          end
        /\ handleTokenPrice c2 w0 q2 =
             match fetchTokenPrice w0 (Query q2 "input") (Query q2 "output")
                     (Query q2 "amount") targetURL with
             | Err err => ({| status := 500; body := ErrorJSON err |}, c2)
             | Ok result =>
                 (JSON_Result 200 result,
                  TokenPairCache_Set c2 (now_Set w0) (Query q2 "input")
                    (Query q2 "output") (Query q2 "amount") result)
             end)
  /\ (exists r,
        resp = JSON_Result 200 r
        /\ Token (Input r) = Query q "input"
        /\ Token (Output r) = Query q "output"
        /\ (exists entry,
              entryAt c' (Query q "input") (Query q "output")
                (Query q "amount") = Some entry
              /\ CacheEntry_Result entry = r)
        /\ (c' = c
            \/ c' = TokenPairCache_Set c (now_Set w) (Query q "input")
                      (Query q "output") (Query q "amount") r)
        /\ (forall sent, body resp = ResultJSON sent -> sent = r))
  /\ (forall c0 now now' i o a r i' o',
        (i', o') <> (i, o) ->
        TokenPairCache_Get (TokenPairCache_Set c0 now i o a r) now' i' o' a
        = TokenPairCache_Get c0 now' i' o' a).
Proof.
  intros Hreach Hrun Hok.
  apply reachable_labelled in Hreach.
  split; [repeat split; vm_compute; reflexivity|].
  split.
  { intros c1 c2 w0 q1 q2 fromAddress toAddress
      Hi1 Hi2 Ho1 Ho2 Ha1 Ha2 Hm1 Hm2 targetURL. subst targetURL.
    split; apply handler_miss_fetches; assumption. }
  split.
  - assert (Hsent : forall r sent,
      body (JSON_Result 200 r) = ResultJSON sent -> sent = r).
    { intros r sent. unfold JSON_Result; cbn [body].
      destruct (jsonEncodable r); [|discriminate].
      intros Hb. injection Hb as <-. reflexivity. }
    revert Hrun Hok. unfold handleTokenPrice.
    destruct (_ || _);
      [intros Hrun; injection Hrun as <- <-; discriminate|].
    destruct (tokenAddresses !! Query q "input");
      [|intros Hrun; injection Hrun as <- <-; discriminate].
    destruct (tokenAddresses !! Query q "output");
      [|intros Hrun; injection Hrun as <- <-; discriminate].
    destruct (TokenPairCache_Get c _ _ _ _) as [cached found] eqn:Hget.
    destruct found.
    + (* cache hit *)
      intros Hrun _. injection Hrun as <- <-.
      rewrite Get_entryAt in Hget.
      destruct (entryAt c _ _ _) as [entry|] eqn:He; [|discriminate].
      destruct (Time_After _ _); [discriminate|].
      injection Hget as <-.
      destruct (Hreach _ _ _ _ He) as [Hin Hout].
      exists (CacheEntry_Result entry).
      split; [reflexivity|]. split; [exact Hin|]. split; [exact Hout|].
      split; [eauto|]. split; [auto|]. apply Hsent.
    + (* cache miss *)
      destruct (fetchTokenPrice w _ _ _ _) as [result|err] eqn:Hfetch;
        intros Hrun; injection Hrun as <- <-; [|discriminate].
      intros _.
      destruct (fetchTokenPrice_tokens _ _ _ _ _ _ Hfetch) as [Hin Hout].
      exists result.
      split; [reflexivity|]. split; [exact Hin|]. split; [exact Hout|].
      split; [eexists; split; [apply entryAt_Set_same|reflexivity]|].
      split; [auto|]. apply Hsent.
  - intros c0 now now' i o a r i' o' Hne. apply Get_Set_other.
    intros Heq. injection Heq as -> ->. congruence.
Qed.

End Handler.

(** ** the claims on concrete requests *)

(** C7 on the specification's two examples: input=doge is a 400 whose
    message names doge, and a request without amount is a 400. *)
Lemma handler_400_iff_witness :
  (@handleTokenPrice plainRuntime NewTokenPairCache
     (stubWorld "0.0005" sampleNow) (query3 "doge" "usdc" "1")).1
  = {| status := 400; body := ErrorJSON "unsupported input token: doge" |}
  /\ status (@handleTokenPrice plainRuntime NewTokenPairCache
               (stubWorld "0.0005" sampleNow)
               (list_to_map [("input", "usdc"); ("output", "eth")])).1 = 400.
Proof.
  split.
  - apply (proj1 (proj2 (proj2 (proj2
             (@handler_400_iff plainRuntime NewTokenPairCache
                (stubWorld "0.0005" sampleNow) (query3 "doge" "usdc" "1")))))).
    + vm_compute; discriminate.
    + vm_compute; discriminate.
    + vm_compute; discriminate.
    + vm_compute; reflexivity.
  - apply (proj1 (proj2 (proj2
             (@handler_400_iff plainRuntime NewTokenPairCache
                (stubWorld "0.0005" sampleNow)
                (list_to_map [("input", "usdc"); ("output", "eth")]))))).
    right; right. vm_compute; reflexivity.
Defined.

(** C8 on a browser run that hits its deadline. *)
Lemma handler_fetch_failure_witness :
  @handleTokenPrice plainRuntime cacheAfterUsdc
    (failingWorld "context deadline exceeded" sampleNow)
    (query3 "usdt" "eth" "1")
  = ({| status := 500; body := ErrorJSON "context deadline exceeded" |},
     cacheAfterUsdc).
Proof.
  apply (proj1 (@handler_fetch_failure plainRuntime cacheAfterUsdc
                  (failingWorld "context deadline exceeded" sampleNow)
                  (query3 "usdt" "eth" "1") USDT_ADDRESS WETH_ADDRESS
                  "context deadline exceeded"
                  ltac:(vm_compute; discriminate)
                  ltac:(vm_compute; discriminate)
                  ltac:(vm_compute; discriminate)
                  ltac:(vm_compute; reflexivity)
                  ltac:(vm_compute; reflexivity)
                  ltac:(vm_compute; reflexivity)
                  ltac:(vm_compute; reflexivity))).
Defined.

(** C10 on the alias usdt, asked of a server that has just cached the same
    quote under usdc: the request is a miss, its quote is labelled and
    stored under usdt; and with a browser that fails with the URL it was
    given as error text, the usdt request and the usdc request both show
    the swap page of the usdc address. *)
Lemma aliases_share_address_not_entries_witness :
  let w := stubWorld "0.0005" sampleNow in
  let q := query3 "usdt" "eth" "1" in
  let run := @handleTokenPrice plainRuntime cacheAfterUsdc w q in
  let sameURL :=
    "https://kuru.io/swap?from=0xf817257fed379853cDe0fa4F97AB987181B1E5Ea&to=0xB5a30b0FDc5EA94A52fDc42e3E9760Cb8449Fb37" in
  (@reachable plainRuntime cacheAfterUsdc
   /\ status run.1 = 200
   /\ TokenPairCache_Get cacheAfterUsdc sampleNow "usdc" "eth" "1"
      = (sampleQuote, true)
   /\ TokenPairCache_Get cacheAfterUsdc sampleNow "usdt" "eth" "1"
      = (Result_zero, false))
  /\ (@handleTokenPrice plainRuntime NewTokenPairCache (echoWorld sampleNow)
        (query3 "usdt" "eth" "1")
      = ({| status := 500; body := ErrorJSON sameURL |}, NewTokenPairCache)
      /\ @handleTokenPrice plainRuntime NewTokenPairCache (echoWorld sampleNow)
           (query3 "usdc" "eth" "1")
         = ({| status := 500; body := ErrorJSON sameURL |}, NewTokenPairCache))
  /\ exists r,
       run.1 = JSON_Result 200 r
       /\ Token (Input r) = "usdt"
       /\ Token (Output r) = "eth"
       /\ (exists entry,
             entryAt run.2 "usdt" "eth" "1" = Some entry
             /\ CacheEntry_Result entry = r).
Proof.
  intros w q run sameURL.
  assert (Hreach : @reachable plainRuntime cacheAfterUsdc)
    by (apply (@reachable_request plainRuntime), reachable_start).
  assert (Hok : status run.1 = 200) by (vm_compute; reflexivity).
  pose proof (@aliases_share_address_not_entries plainRuntime cacheAfterUsdc
                run.2 w q run.1 Hreach (surjective_pairing run) Hok)
    as (_ & Hurl & (r & Hresp & Hin & Hout & Hentry & _) & _).
  split.
  { split; [exact Hreach|]. split; [exact Hok|].
    split; vm_compute; reflexivity. }
  split.
  { destruct (Hurl NewTokenPairCache NewTokenPairCache (echoWorld sampleNow)
                (query3 "usdt" "eth" "1") (query3 "usdc" "eth" "1")
                USDC_ADDRESS WETH_ADDRESS
                ltac:(vm_compute; reflexivity) ltac:(vm_compute; reflexivity)
                ltac:(vm_compute; reflexivity) ltac:(vm_compute; reflexivity)
                ltac:(vm_compute; discriminate) ltac:(vm_compute; discriminate)
                ltac:(vm_compute; reflexivity) ltac:(vm_compute; reflexivity))
      as [Hq1 Hq2].
    split; [rewrite Hq1|rewrite Hq2]; vm_compute; reflexivity. }
  exists r. split; [exact Hresp|]. split; [exact Hin|]. split; [exact Hout|].
  exact Hentry.
Defined.

(* ===================================================================== *)
(** * Part III: further properties of the code                            *)
(* ===================================================================== *)

(** ** the cache as a store *)

Section CacheStore.

Implicit Types (c : TokenPairCache) (now : Time) (r : Result).
Implicit Types (i o a : string).

(** The map [Set] leaves, as three nested assignments. *)
Lemma Set_cache c now i o a r :
  cache (TokenPairCache_Set c now i o a r) =
    <[i := <[o := <[a := {| CacheEntry_Result := r;
                            ExpiresAt := Time_Add now CACHE_TTL |}]>
                    (level3 c i o)]> (level2 c i)]> (cache c).
Proof.
  unfold TokenPairCache_Set, level3, level2; cbn [cache].
  destruct (cache c !! i) as [byOutput|] eqn:Hc; simpl.
  - rewrite (lookup_total_correct _ _ _ Hc).
    destruct (byOutput !! o) as [byAmount|] eqn:Hb; simpl.
    + rewrite (lookup_total_correct _ _ _ Hb). reflexivity.
    + erewrite lookup_total_correct by apply lookup_insert_eq.
      rewrite insert_insert_eq. reflexivity.
  - erewrite (lookup_total_correct (<[i:=∅]> (cache c))) by apply lookup_insert_eq.
    rewrite lookup_empty; simpl.
    erewrite lookup_total_correct by apply lookup_insert_eq.
    rewrite !insert_insert_eq. reflexivity.
Qed.

Lemma cache_eq c1 c2 : cache c1 = cache c2 -> c1 = c2.
Proof. destruct c1, c2; simpl; intros ->; reflexivity. Qed.

Lemma level2_Set_same c now i o a r :
  level2 (TokenPairCache_Set c now i o a r) i =
    <[o := <[a := {| CacheEntry_Result := r;
                     ExpiresAt := Time_Add now CACHE_TTL |}]>
            (level3 c i o)]> (level2 c i).
Proof. unfold level2 at 1. rewrite Set_cache, lookup_insert_eq. reflexivity. Qed.

Lemma level2_Set_other c now i o a r i' :
  i' <> i -> level2 (TokenPairCache_Set c now i o a r) i' = level2 c i'.
Proof.
  intros Hne. unfold level2. rewrite Set_cache, lookup_insert_ne by congruence.
  reflexivity.
Qed.

Lemma level3_Set_same c now i o a r :
  level3 (TokenPairCache_Set c now i o a r) i o =
    <[a := {| CacheEntry_Result := r; ExpiresAt := Time_Add now CACHE_TTL |}]>
      (level3 c i o).
Proof.
  unfold level3 at 1. rewrite level2_Set_same, lookup_insert_eq. reflexivity.
Qed.

Lemma level3_Set_other c now i o a r i' o' :
  (i', o') <> (i, o) ->
  level3 (TokenPairCache_Set c now i o a r) i' o' = level3 c i' o'.
Proof.
  intros Hne. unfold level3.
  destruct (decide (i' = i)) as [->|Hi].
  - rewrite level2_Set_same, lookup_insert_ne by congruence. reflexivity.
  - rewrite level2_Set_other by assumption. reflexivity.
Qed.

Lemma Get_New_miss now i o a :
  TokenPairCache_Get NewTokenPairCache now i o a = (Result_zero, false).
Proof.
  unfold TokenPairCache_Get, NewTokenPairCache; simpl.
  rewrite lookup_empty. reflexivity.
Qed.

Lemma Get_Set_live c now now' i o a r :
  now' <= Time_Add now CACHE_TTL ->
  TokenPairCache_Get (TokenPairCache_Set c now i o a r) now' i o a = (r, true).
Proof.
  intros Hnow. rewrite Get_entryAt, entryAt_Set_same; simpl.
  unfold Time_After.
  destruct (Z.ltb_spec (Time_Add now CACHE_TTL) now'); [lia|reflexivity].
Qed.

(** X1. A miss carries the zero value: whenever [Get] reports found=false,
    for a missing level, a missing entry or an expired one, the quote it
    returns is [Result{}]; and every [Get] on the cache made at start-up is
    such a miss. *)
Theorem Get_miss_is_zero_value c now i o a :
  (TokenPairCache_Get c now i o a).2 = false ->
  TokenPairCache_Get c now i o a = (Result_zero, false)
  /\ (forall now' i' o' a',
        TokenPairCache_Get NewTokenPairCache now' i' o' a'
        = (Result_zero, false)).
Proof.
  intros Hmiss. split.
  - revert Hmiss. rewrite Get_entryAt.
    destruct (entryAt c i o a) as [entry|]; [|reflexivity].
    destruct (Time_After now (ExpiresAt entry)); [reflexivity|discriminate].
  - intros now' i' o' a'. apply Get_New_miss.
Qed.

(** X2. Expiry is lazy: read after the expiry stamped by [Set], the entry is
    a miss with the zero value, while it is still stored in the map as
    [Set] wrote it. *)
Theorem Get_after_expiry_misses c now now' i o a r :
  Time_Add now CACHE_TTL < now' ->
  let c' := TokenPairCache_Set c now i o a r in
  TokenPairCache_Get c' now' i o a = (Result_zero, false)
  /\ entryAt c' i o a =
       Some {| CacheEntry_Result := r; ExpiresAt := Time_Add now CACHE_TTL |}.
Proof.
  intros Hlate c'. subst c'. split; [|apply entryAt_Set_same].
  rewrite Get_entryAt, entryAt_Set_same; simpl. unfold Time_After.
  destruct (Z.ltb_spec (Time_Add now CACHE_TTL) now') as [_|Hge]; [|lia].
  reflexivity.
Qed.

(** X3. The last write wins: two [Set]s on the same key triple leave the
    cache exactly as the second alone would, quote and expiry. *)
Theorem Set_Set_same_key c now1 now2 i o a r1 r2 :
  TokenPairCache_Set (TokenPairCache_Set c now1 i o a r1) now2 i o a r2
  = TokenPairCache_Set c now2 i o a r2.
Proof.
  apply cache_eq.
  rewrite (Set_cache (TokenPairCache_Set c now1 i o a r1)).
  rewrite level3_Set_same, level2_Set_same, !Set_cache.
  rewrite !insert_insert_eq. reflexivity.
Qed.

(** X4. [Set]s on different key triples commute: the cache does not depend
    on the order in which two different quotes were stored. *)
Theorem Set_Set_commute c now1 now2 i1 o1 a1 r1 i2 o2 a2 r2 :
  (i1, o1, a1) <> (i2, o2, a2) ->
  TokenPairCache_Set (TokenPairCache_Set c now1 i1 o1 a1 r1) now2 i2 o2 a2 r2
  = TokenPairCache_Set (TokenPairCache_Set c now2 i2 o2 a2 r2) now1 i1 o1 a1 r1.
Proof.
  intros Hne. apply cache_eq.
  rewrite (Set_cache (TokenPairCache_Set c now1 i1 o1 a1 r1)).
  rewrite (Set_cache (TokenPairCache_Set c now2 i2 o2 a2 r2)).
  destruct (decide (i1 = i2)) as [->|Hi].
  - destruct (decide (o1 = o2)) as [->|Ho].
    + assert (Ha : a1 <> a2) by congruence.
      rewrite !level3_Set_same, !level2_Set_same, !Set_cache.
      rewrite !insert_insert_eq.
      rewrite (insert_insert_ne _ a2 a1) by congruence. reflexivity.
    + rewrite !level3_Set_other by congruence.
      rewrite !level2_Set_same, !Set_cache.
      rewrite !insert_insert_eq.
      rewrite (insert_insert_ne _ o2 o1) by congruence. reflexivity.
  - rewrite !level3_Set_other by congruence.
    rewrite !level2_Set_other by congruence.
    rewrite !Set_cache.
    rewrite (insert_insert_ne _ i2 i1) by congruence. reflexivity.
Qed.

End CacheStore.

Lemma Get_miss_is_zero_value_witness :
  (TokenPairCache_Get cacheAfterUsdc sampleNow "usdt" "eth" "1").2 = false
  /\ TokenPairCache_Get cacheAfterUsdc sampleNow "usdt" "eth" "1"
     = (Result_zero, false).
Proof.
  assert (Hmiss : (TokenPairCache_Get cacheAfterUsdc sampleNow
                     "usdt" "eth" "1").2 = false)
    by (vm_compute; reflexivity).
  split; [exact Hmiss|].
  exact (proj1 (Get_miss_is_zero_value cacheAfterUsdc sampleNow
                  "usdt" "eth" "1" Hmiss)).
Defined.

Lemma Get_after_expiry_misses_witness :
  Time_Add sampleNow CACHE_TTL < sampleNow + 3 * Hour
  /\ TokenPairCache_Get
       (TokenPairCache_Set NewTokenPairCache sampleNow "usdc" "eth" "1"
          sampleQuote)
       (sampleNow + 3 * Hour) "usdc" "eth" "1" = (Result_zero, false).
Proof.
  assert (Hlate : Time_Add sampleNow CACHE_TTL < sampleNow + 3 * Hour)
    by (vm_compute; reflexivity).
  split; [exact Hlate|].
  exact (proj1 (Get_after_expiry_misses NewTokenPairCache sampleNow
                  (sampleNow + 3 * Hour) "usdc" "eth" "1" sampleQuote Hlate)).
Defined.

Lemma Set_Set_commute_witness :
  TokenPairCache_Set
    (TokenPairCache_Set NewTokenPairCache 0 "usdc" "eth" "1" sampleQuote)
    5 "usdc" "eth" "1.0" Result_zero
  = TokenPairCache_Set
      (TokenPairCache_Set NewTokenPairCache 5 "usdc" "eth" "1.0" Result_zero)
      0 "usdc" "eth" "1" sampleQuote.
Proof.
  apply Set_Set_commute. intros H. inversion H.
Defined.

(** ** the handler and the cache together *)

Section HandlerCache.

Context `{GoRuntime}.

(** X5. A request touches at most the entry of its own key triple: every
    entry under another triple is after the request what it was before, and
    no entry, expired or not, is ever removed. *)
Theorem handler_touches_only_its_triple (c : TokenPairCache) (w : World)
    (q : gmap string string) :
  let c' := (handleTokenPrice c w q).2 in
  (forall i o a,
     (i, o, a) <> (Query q "input", Query q "output", Query q "amount") ->
     entryAt c' i o a = entryAt c i o a)
  /\ (forall i o a, is_Some (entryAt c i o a) -> is_Some (entryAt c' i o a)).
Proof.
  intros c'. subst c'. split.
  - intros i o a Hne. handler_branches; try reflexivity.
    apply entryAt_Set_other, Hne.
  - intros i o a Hsome. handler_branches; try exact Hsome.
    destruct (decide ((i, o, a) =
                (Query q "input", Query q "output", Query q "amount")))
      as [Heq|Hne].
    + injection Heq as -> -> ->. rewrite entryAt_Set_same. eauto.
    + rewrite entryAt_Set_other by exact Hne. exact Hsome.
Qed.

(** X6. The handler answers 200, 400 or 500 and nothing else, with an
    error message exactly when the status is not 200. It never sends an
    infinity or NaN: a quote in the body has three finite numbers, and a
    200 goes out with an empty body exactly when the quote of the request,
    which is then in the cache under the request's triple, holds an
    infinity or NaN. *)
Theorem handler_status_classes (c : TokenPairCache) (w : World)
    (q : gmap string string) :
  let resp := (handleTokenPrice c w q).1 in
  let c' := (handleTokenPrice c w q).2 in
  (status resp = 200 \/ status resp = 400 \/ status resp = 500)
  /\ (status resp <> 200 <-> exists msg, body resp = ErrorJSON msg)
  /\ (forall r, body resp = ResultJSON r ->
        status resp = 200
        /\ notFinite (Amount (Input r)) = false
        /\ notFinite (Amount (Output r)) = false
        /\ notFinite (ExchangeRate r) = false)
  /\ (body resp = EmptyBody <->
        status resp = 200
        /\ exists entry,
             entryAt c' (Query q "input") (Query q "output")
               (Query q "amount") = Some entry
             /\ jsonEncodable (CacheEntry_Result entry) = false).
Proof.
  intros resp c'. subst resp c'.
  assert (Henc : forall r, jsonEncodable r = true ->
    notFinite (Amount (Input r)) = false
    /\ notFinite (Amount (Output r)) = false
    /\ notFinite (ExchangeRate r) = false).
  { intros r. unfold jsonEncodable.
    destruct (notFinite (Amount (Input r)));
      destruct (notFinite (Amount (Output r)));
      destruct (notFinite (ExchangeRate r)); cbn; intros He;
      try discriminate He; auto. }
  unfold handleTokenPrice.
  destruct (_ || _); cbn [fst snd status body].
  { split; [tauto|]. split; [split; [eauto|discriminate]|].
    split; [discriminate|]. split; [discriminate|]. intros [Hs _].
    discriminate Hs. }
  destruct (tokenAddresses !! Query q "input"); cbn [fst snd status body].
  2:{ split; [tauto|]. split; [split; [eauto|discriminate]|].
      split; [discriminate|]. split; [discriminate|]. intros [Hs _].
      discriminate Hs. }
  destruct (tokenAddresses !! Query q "output"); cbn [fst snd status body].
  2:{ split; [tauto|]. split; [split; [eauto|discriminate]|].
      split; [discriminate|]. split; [discriminate|]. intros [Hs _].
      discriminate Hs. }
  destruct (TokenPairCache_Get c _ _ _ _) as [cached found] eqn:Hget.
  destruct found; cbn [fst snd].
  - (* cache hit *)
    rewrite Get_entryAt in Hget.
    destruct (entryAt c _ _ _) as [entry|] eqn:He; [|discriminate].
    destruct (Time_After _ _); [discriminate|].
    injection Hget as <-.
    unfold JSON_Result; cbn [status body].
    destruct (jsonEncodable (CacheEntry_Result entry)) eqn:Hj.
    + split; [tauto|].
      split; [split; [intros Hs; exfalso; apply Hs; reflexivity
                     |intros [msg Hb]; discriminate Hb]|].
      split; [intros r Hb; injection Hb as <-; split;
              [reflexivity|apply Henc, Hj]|].
      split; [discriminate|].
      intros [_ (entry' & He' & Hj')]. congruence.
    + split; [tauto|].
      split; [split; [intros Hs; exfalso; apply Hs; reflexivity
                     |intros [msg Hb]; discriminate Hb]|].
      split; [discriminate|].
      split; [intros _; split; [reflexivity|eauto]|reflexivity].
  - (* cache miss *)
    destruct (fetchTokenPrice w _ _ _ _) as [result|err];
      cbn [fst snd status body].
    + unfold JSON_Result; cbn [status body].
      rewrite entryAt_Set_same.
      destruct (jsonEncodable result) eqn:Hj.
      * split; [tauto|].
        split; [split; [intros Hs; exfalso; apply Hs; reflexivity
                       |intros [msg Hb]; discriminate Hb]|].
        split; [intros r Hb; injection Hb as <-; split;
                [reflexivity|apply Henc, Hj]|].
        split; [discriminate|].
        intros [_ (entry' & He' & Hj')]. injection He' as <-.
        cbn [CacheEntry_Result] in Hj'. congruence.
      * split; [tauto|].
        split; [split; [intros Hs; exfalso; apply Hs; reflexivity
                       |intros [msg Hb]; discriminate Hb]|].
        split; [discriminate|].
        split; [intros _; split; [reflexivity|]|reflexivity].
        eexists. split; [reflexivity|]. exact Hj.
    + split; [tauto|]. split; [split; [eauto|discriminate]|].
      split; [discriminate|]. split; [discriminate|]. intros [Hs _].
      discriminate Hs.
Qed.

(** X7. A request that missed the cache and got a 200 is served from the
    cache when it is repeated: at any instant up to the expiry just
    stamped, the same query gets the same response and leaves the cache as
    it is, whatever the browser would show then. *)
Theorem handler_repeat_is_hit (c c1 : TokenPairCache) (w1 w2 : World)
    (q : gmap string string) (resp : Response) :
  handleTokenPrice c w1 q = (resp, c1) ->
  status resp = 200 ->
  (TokenPairCache_Get c (now_Get w1)
     (Query q "input") (Query q "output") (Query q "amount")).2 = false ->
  now_Get w2 <= Time_Add (now_Set w1) CACHE_TTL ->
  handleTokenPrice c1 w2 q = (resp, c1).
Proof.
  intros Hrun Hok Hmiss Hnow. revert Hrun Hmiss.
  unfold handleTokenPrice.
  destruct (String.eqb_spec (Query q "input") "");
    [intros Hrun; injection Hrun as <- <-; discriminate Hok|].
  destruct (String.eqb_spec (Query q "output") "");
    [intros Hrun; injection Hrun as <- <-; discriminate Hok|].
  destruct (String.eqb_spec (Query q "amount") "");
    [intros Hrun; injection Hrun as <- <-; discriminate Hok|].
  cbn [orb].
  destruct (tokenAddresses !! Query q "input") as [fromAddress|];
    [|intros Hrun; injection Hrun as <- <-; discriminate Hok].
  destruct (tokenAddresses !! Query q "output") as [toAddress|];
    [|intros Hrun; injection Hrun as <- <-; discriminate Hok].
  destruct (TokenPairCache_Get c (now_Get w1) _ _ _) as [cached found].
  intros Hrun Hmiss. cbn [snd] in Hmiss. subst found.
  destruct (fetchTokenPrice w1 _ _ _ _) as [result|err];
    injection Hrun as <- <-; [|discriminate Hok].
  rewrite Get_Set_live by exact Hnow. reflexivity.
Qed.

(** X8. Validation comes before the cache and the browser: a query that is
    answered 400 is answered the same 400 on every cache and in every
    world, and the cache is left as it is. *)
Theorem handler_400_is_static (c : TokenPairCache) (w : World)
    (q : gmap string string) :
  status (handleTokenPrice c w q).1 = 400 ->
  forall c' w', handleTokenPrice c' w' q = ((handleTokenPrice c w q).1, c').
Proof.
  intros H400 c' w'. revert H400. unfold handleTokenPrice.
  destruct (_ || _); [reflexivity|].
  destruct (tokenAddresses !! Query q "input"); [|reflexivity].
  destruct (tokenAddresses !! Query q "output"); [|reflexivity].
  destruct (TokenPairCache_Get c _ _ _ _) as [? []]; cbn [fst status];
    [discriminate|].
  destruct (fetchTokenPrice w _ _ _ _); cbn [fst status]; discriminate.
Qed.

Lemma handler_miss_uncached (c : TokenPairCache) (w : World)
    (q : gmap string string) :
  (TokenPairCache_Get c (now_Get w)
     (Query q "input") (Query q "output") (Query q "amount")).2 = false ->
  (handleTokenPrice c w q).1 = handleTokenPrice_uncached w q.
Proof.
  unfold handleTokenPrice, handleTokenPrice_uncached.
  destruct (_ || _); [reflexivity|].
  destruct (tokenAddresses !! Query q "input"); [|reflexivity].
  destruct (tokenAddresses !! Query q "output"); [|reflexivity].
  destruct (TokenPairCache_Get c _ _ _ _) as [cached found].
  cbn [snd]. intros ->.
  destruct (fetchTokenPrice w _ _ _ _); reflexivity.
Qed.

(** X9. Whenever the cache has no live entry for the request, the handler
    answers exactly as the handler of the first version, which has no
    cache; on the cache made at start-up this is every request. With a
    live entry it answers 200 with the stored quote as [c.JSON] sends it
    (an empty body when the quote cannot be encoded) and leaves the cache
    as it is. *)
Theorem handler_refines_uncached (c : TokenPairCache) (w : World)
    (q : gmap string string) :
  let lookup := TokenPairCache_Get c (now_Get w)
                  (Query q "input") (Query q "output") (Query q "amount") in
  (lookup.2 = false -> (handleTokenPrice c w q).1 = handleTokenPrice_uncached w q)
  /\ (handleTokenPrice NewTokenPairCache w q).1 = handleTokenPrice_uncached w q
  /\ (lookup.2 = true ->
      status (handleTokenPrice_uncached w q) <> 400 ->
      handleTokenPrice c w q = (JSON_Result 200 lookup.1, c))
  /\ (status (handleTokenPrice c w q).1 = 400 <->
      status (handleTokenPrice_uncached w q) = 400).
Proof.
  intros lookup. subst lookup.
  split; [apply handler_miss_uncached|]. split.
  { apply handler_miss_uncached. rewrite Get_New_miss. reflexivity. }
  split.
  - unfold handleTokenPrice, handleTokenPrice_uncached.
    destruct (_ || _); [intros _ Hs; exfalso; apply Hs; reflexivity|].
    destruct (tokenAddresses !! Query q "input");
      [|intros _ Hs; exfalso; apply Hs; reflexivity].
    destruct (tokenAddresses !! Query q "output");
      [|intros _ Hs; exfalso; apply Hs; reflexivity].
    destruct (TokenPairCache_Get c _ _ _ _) as [cached found].
    cbn [fst snd]. intros -> _. reflexivity.
  - unfold handleTokenPrice, handleTokenPrice_uncached.
    destruct (_ || _); [tauto|].
    destruct (tokenAddresses !! Query q "input"); [|tauto].
    destruct (tokenAddresses !! Query q "output"); [|tauto].
    destruct (TokenPairCache_Get c _ _ _ _) as [cached []];
      destruct (fetchTokenPrice w _ _ _ _); cbn [fst status];
      split; intros Hs; discriminate Hs.
Qed.

(** X10. An expired entry is not served but refreshed: when the entry of
    the request's triple has expired and the response is a 200, the quote
    sent is a fresh one, and it replaces the old entry with the expiry
    counted from the new [Set]. *)
Theorem handler_refreshes_stale_entry (c c' : TokenPairCache) (w : World)
    (q : gmap string string) (resp : Response) (stale : CacheEntry) :
  let inputToken := Query q "input" in
  let outputToken := Query q "output" in
  let amount := Query q "amount" in
  entryAt c inputToken outputToken amount = Some stale ->
  ExpiresAt stale < now_Get w ->
  handleTokenPrice c w q = (resp, c') ->
  status resp = 200 ->
  resp = handleTokenPrice_uncached w q
  /\ exists result,
       resp = JSON_Result 200 result
       /\ c' = TokenPairCache_Set c (now_Set w) inputToken outputToken amount
                 result
       /\ entryAt c' inputToken outputToken amount =
            Some {| CacheEntry_Result := result;
                    ExpiresAt := Time_Add (now_Set w) CACHE_TTL |}.
Proof.
  intros inputToken outputToken amount Hstale Hexp Hrun Hok.
  subst inputToken outputToken amount.
  assert (Hmiss : TokenPairCache_Get c (now_Get w)
            (Query q "input") (Query q "output") (Query q "amount")
          = (Result_zero, false)).
  { rewrite Get_entryAt, Hstale. unfold Time_After.
    destruct (Z.ltb_spec (ExpiresAt stale) (now_Get w)); [reflexivity|lia]. }
  split.
  { rewrite <- (handler_miss_uncached c w q).
    - rewrite Hrun. reflexivity.
    - rewrite Hmiss. reflexivity. }
  revert Hrun. unfold handleTokenPrice.
  destruct (_ || _);
    [intros Hrun; injection Hrun as <- <-; discriminate Hok|].
  destruct (tokenAddresses !! Query q "input");
    [|intros Hrun; injection Hrun as <- <-; discriminate Hok].
  destruct (tokenAddresses !! Query q "output");
    [|intros Hrun; injection Hrun as <- <-; discriminate Hok].
  rewrite Hmiss.
  destruct (fetchTokenPrice w _ _ _ _) as [result|err];
    intros Hrun; injection Hrun as <- <-; [|discriminate Hok].
  exists result. split; [reflexivity|]. split; [reflexivity|].
  apply entryAt_Set_same.
Qed.

(** X16. The quote of a 200 response is in the cache afterwards, under the
    triple of the request: a hit sends the quote that is stored, and a miss
    stores the quote it sends. What is sent is that quote as [c.JSON]
    writes it: the quote itself, or an empty body when it holds an
    infinity or NaN. *)
Theorem handler_200_quote_is_stored (c c' : TokenPairCache) (w : World)
    (q : gmap string string) (resp : Response) :
  handleTokenPrice c w q = (resp, c') ->
  status resp = 200 ->
  exists entry,
    entryAt c' (Query q "input") (Query q "output") (Query q "amount")
    = Some entry
    /\ resp = JSON_Result 200 (CacheEntry_Result entry)
    /\ (forall sent, body resp = ResultJSON sent ->
          sent = CacheEntry_Result entry).
Proof.
  intros Hrun Hok.
  assert (Hsent : forall r sent,
    body (JSON_Result 200 r) = ResultJSON sent -> sent = r).
  { intros r sent. unfold JSON_Result; cbn [body].
    destruct (jsonEncodable r); [|discriminate].
    intros Hb. injection Hb as <-. reflexivity. }
  revert Hrun Hok. unfold handleTokenPrice.
  destruct (_ || _);
    [intros Hrun; injection Hrun as <- <-; discriminate|].
  destruct (tokenAddresses !! Query q "input");
    [|intros Hrun; injection Hrun as <- <-; discriminate].
  destruct (tokenAddresses !! Query q "output");
    [|intros Hrun; injection Hrun as <- <-; discriminate].
  destruct (TokenPairCache_Get c _ _ _ _) as [cached found] eqn:Hget.
  destruct found.
  - intros Hrun _. injection Hrun as <- <-.
    rewrite Get_entryAt in Hget.
    destruct (entryAt c _ _ _) as [entry|] eqn:He; [|discriminate].
    destruct (Time_After _ _); [discriminate|].
    injection Hget as <-. exists entry.
    split; [reflexivity|]. split; [reflexivity|]. apply Hsent.
  - destruct (fetchTokenPrice w _ _ _ _) as [result|err];
      intros Hrun; injection Hrun as <- <-; [|discriminate].
    intros _. eexists. split; [apply entryAt_Set_same|].
    split; [reflexivity|]. apply Hsent.
Qed.

End HandlerCache.

(** ** the pipeline's errors and edge values *)

Section PipelineEdges.

Context `{GoRuntime}.

(** X11. The fetch fails in three ways only, tried in this order: the
    browser run fails; the read-back input does not parse (whatever the
    output is); the input parses and the output, after the fallback probe,
    does not. The error returned is that of the first failure, and no
    value of the two amounts makes the fetch fail. *)
Theorem fetchTokenPrice_failures (w : World)
    (inputToken outputToken amount targetURL : string) (err : error) :
  fetchTokenPrice w inputToken outputToken amount targetURL = Err err <->
    browser w targetURL amount = RunFailed err
    \/ (exists inputValue outputValue fallback,
          browser w targetURL amount = Scraped inputValue outputValue fallback
          /\ strconv_ParseFloat (strings_TrimSpace inputValue) = Err err)
    \/ (exists inputValue outputValue fallback inputAmount,
          browser w targetURL amount = Scraped inputValue outputValue fallback
          /\ strconv_ParseFloat (strings_TrimSpace inputValue) = Ok inputAmount
          /\ strconv_ParseFloat
               (strings_TrimSpace (fallbackProbe outputValue fallback))
             = Err err).
Proof.
  unfold fetchTokenPrice. split.
  - destruct (browser w targetURL amount) as [e|iv ov fb].
    + intros He. injection He as ->. left. reflexivity.
    + destruct (strconv_ParseFloat (strings_TrimSpace iv)) as [x|e] eqn:Hin.
      * destruct (strconv_ParseFloat
                    (strings_TrimSpace (fallbackProbe ov fb)))
          as [y|e] eqn:Hout; [discriminate|].
        intros He. injection He as ->. right; right.
        exists iv, ov, fb, x. auto.
      * intros He. injection He as ->. right; left.
        exists iv, ov, fb. auto.
  - intros [Hb|[(iv & ov & fb & Hb & Hin)|(iv & ov & fb & x & Hb & Hin & Hout)]];
      rewrite Hb; [reflexivity| |].
    + rewrite Hin. reflexivity.
    + rewrite Hin, Hout. reflexivity.
Qed.

(** X12. The division by the input amount has no guard: when the page
    reads back a zero input, the fetch still succeeds, and the exchange
    rate of the quote is an infinity or NaN, never a finite number. *)
Theorem zero_input_rate_not_finite (w : World)
    (inputToken outputToken amount targetURL : string) (r : Result)
    (s : bool) :
  fetchTokenPrice w inputToken outputToken amount targetURL = Ok r ->
  Amount (Input r) = S754_zero s ->
  notFinite (ExchangeRate r) = true.
Proof.
  intros Hr Hz. apply fetchTokenPrice_Ok in Hr.
  destruct Hr as (iv & ov & fb & ia & oa & _ & _ & _ & ->).
  cbn [Input Amount] in Hz. subst ia. cbn [ExchangeRate].
  destruct (truncateOutput outputToken oa); reflexivity.
Qed.

(** X13. Truncation passes the values that are not numbers through: for
    every output symbol, NaN stays NaN, an infinity stays that infinity
    and a zero stays that zero, sign included. *)
Theorem truncateOutput_special_values (outputToken : string) :
  truncateOutput outputToken S754_nan = S754_nan
  /\ (forall s, truncateOutput outputToken (S754_infinity s) = S754_infinity s)
  /\ (forall s, truncateOutput outputToken (S754_zero s) = S754_zero s).
Proof.
  unfold truncateOutput. rewrite Pow10_decimalPlaces.
  destruct (decimalPlaces_cases outputToken) as [->|[->| ->]];
    repeat split; try (intros []); vm_compute; reflexivity.
Qed.

End PipelineEdges.

(** ** the registry *)

Lemma registry_domain (symbol : string) :
  is_Some (tokenAddresses !! symbol) <-> symbol ∈ registeredSymbols.
Proof.
  unfold tokenAddresses. split.
  - intros [address Hsome].
    apply elem_of_list_to_map_2 in Hsome.
    apply (list_elem_of_fmap_2 fst) in Hsome. exact Hsome.
  - intros Hin.
    destruct (list_to_map _ !! symbol) as [address|] eqn:Hl; [eauto|].
    apply not_elem_of_list_to_map in Hl. contradiction.
Qed.

Section Validation.

Context `{GoRuntime}.

(** X14. The handler lets a request through validation exactly when the
    amount is not empty and both symbols are among mon, wmon, dak, lbtc,
    usdc, usdt, eth and wbtc, compared as they are written (no case
    folding, no trimming). *)
Theorem handler_accepts_registered_symbols (c : TokenPairCache) (w : World)
    (q : gmap string string) :
  status (handleTokenPrice c w q).1 <> 400 <->
    Query q "amount" <> ""
    /\ Query q "input" ∈ registeredSymbols
    /\ Query q "output" ∈ registeredSymbols.
Proof.
  rewrite <- !registry_domain.
  pose proof registry_no_empty_symbol as Hempty.
  handler_branches;
    (split;
     [ intros Hs; try (exfalso; apply Hs; reflexivity);
       repeat split; eauto; congruence
     | intros (Ha & [x Hx] & [y Hy]) Hs;
       try discriminate Hs; congruence ]).
Qed.

End Validation.

(** ** aliases *)

(** Symbols that share an address share a precision. *)
Lemma same_address_same_precision (s1 s2 address : string) :
  tokenAddresses !! s1 = Some address ->
  tokenAddresses !! s2 = Some address ->
  decimalPlaces s1 = decimalPlaces s2.
Proof.
  intros H1 H2.
  assert (Hin1 : s1 ∈ registeredSymbols) by (apply registry_domain; eauto).
  assert (Hin2 : s2 ∈ registeredSymbols) by (apply registry_domain; eauto).
  unfold registeredSymbols in Hin1, Hin2.
  repeat (apply elem_of_cons in Hin1 as [->|Hin1]);
    try (apply elem_of_nil in Hin1; contradiction);
    repeat (apply elem_of_cons in Hin2 as [->|Hin2]);
    try (apply elem_of_nil in Hin2; contradiction);
    try reflexivity;
    vm_compute in H1, H2; rewrite <- H1 in H2; discriminate H2.
Qed.

Section Aliases.

Context `{GoRuntime}.

(** X15. Two requests in the same world, for the same amount, whose input
    symbols share a registry address and whose output symbols do too (usdt
    for usdc, wmon for mon), get the same status and the same error text
    or the same numbers: input amount, output amount, exchange rate and
    timestamp agree, and only the token labels differ. *)
Theorem alias_requests_agree (w : World) (q1 q2 : gmap string string)
    (fromAddress toAddress : string) :
  Query q1 "amount" = Query q2 "amount" ->
  tokenAddresses !! Query q1 "input" = Some fromAddress ->
  tokenAddresses !! Query q2 "input" = Some fromAddress ->
  tokenAddresses !! Query q1 "output" = Some toAddress ->
  tokenAddresses !! Query q2 "output" = Some toAddress ->
  let resp1 := handleTokenPrice_uncached w q1 in
  let resp2 := handleTokenPrice_uncached w q2 in
  status resp1 = status resp2
  /\ (forall msg, body resp1 = ErrorJSON msg <-> body resp2 = ErrorJSON msg)
  /\ (forall r1, body resp1 = ResultJSON r1 ->
        exists r2, body resp2 = ResultJSON r2
          /\ Amount (Input r1) = Amount (Input r2)
          /\ Amount (Output r1) = Amount (Output r2)
          /\ ExchangeRate r1 = ExchangeRate r2
          /\ Timestamp r1 = Timestamp r2
          /\ Token (Input r1) = Query q1 "input"
          /\ Token (Input r2) = Query q2 "input"
          /\ Token (Output r1) = Query q1 "output"
          /\ Token (Output r2) = Query q2 "output").
Proof.
  intros Hamount Hi1 Hi2 Ho1 Ho2 resp1 resp2. subst resp1 resp2.
  pose proof registry_no_empty_symbol as Hempty.
  pose proof (same_address_same_precision _ _ _ Ho1 Ho2) as Hprec.
  unfold handleTokenPrice_uncached.
  rewrite Hi1, Hi2, Ho1, Ho2, <- Hamount.
  destruct (String.eqb_spec (Query q1 "input") ""); [congruence|].
  destruct (String.eqb_spec (Query q2 "input") ""); [congruence|].
  destruct (String.eqb_spec (Query q1 "output") ""); [congruence|].
  destruct (String.eqb_spec (Query q2 "output") ""); [congruence|].
  cbn [orb].
  destruct (String.eqb (Query q1 "amount") "").
  { cbn [status body]. split; [reflexivity|]. split; [tauto|].
    intros r1 Hb. discriminate Hb. }
  unfold fetchTokenPrice, truncateOutput. rewrite Hprec.
  destruct (browser w _ _) as [err|iv ov fb].
  { cbn [status body]. split; [reflexivity|]. split; [tauto|].
    intros r1 Hb. discriminate Hb. }
  destruct (strconv_ParseFloat (strings_TrimSpace iv)) as [x|err].
  2:{ cbn [status body]. split; [reflexivity|]. split; [tauto|].
      intros r1 Hb. discriminate Hb. }
  destruct (strconv_ParseFloat (strings_TrimSpace (fallbackProbe ov fb)))
    as [y|err].
  2:{ cbn [status body]. split; [reflexivity|]. split; [tauto|].
      intros r1 Hb. discriminate Hb. }
  unfold JSON_Result, jsonEncodable.
  cbn [status body Input Output Amount ExchangeRate].
  match goal with
  | |- context [if ?b then _ else _] => destruct b
  end.
  - split; [reflexivity|]. split.
    { intros msg. split; intros Hb; discriminate Hb. }
    intros r1 Hb. injection Hb as <-.
    eexists. split; [reflexivity|]. cbn. repeat split; reflexivity.
  - split; [reflexivity|]. split.
    { intros msg. split; intros Hb; discriminate Hb. }
    intros r1 Hb. discriminate Hb.
Qed.

End Aliases.

(** ** the further properties on concrete requests *)

(** X7 on the sample request: served from the cache an hour later, although
    the browser would then fail. *)
Lemma handler_repeat_is_hit_witness :
  let q := query3 "usdc" "eth" "1" in
  let w1 := stubWorld "0.0005" sampleNow in
  let w2 := failingWorld "context deadline exceeded" (sampleNow + Hour) in
  @handleTokenPrice plainRuntime cacheAfterUsdc w2 q
  = ({| status := 200; body := ResultJSON sampleQuote |}, cacheAfterUsdc).
Proof.
  intros q w1 w2.
  apply (@handler_repeat_is_hit plainRuntime NewTokenPairCache cacheAfterUsdc
           w1 w2 q {| status := 200; body := ResultJSON sampleQuote |}).
  - vm_compute. reflexivity.
  - reflexivity.
  - vm_compute. reflexivity.
  - vm_compute. discriminate.
Defined.

(** X8 on the request for the unknown symbol doge. *)
Lemma handler_400_is_static_witness :
  @handleTokenPrice plainRuntime cacheAfterUsdc
    (failingWorld "context deadline exceeded" 0) (query3 "doge" "usdc" "1")
  = ((@handleTokenPrice plainRuntime NewTokenPairCache
        (stubWorld "0.0005" sampleNow) (query3 "doge" "usdc" "1")).1,
     cacheAfterUsdc).
Proof.
  apply (@handler_400_is_static plainRuntime NewTokenPairCache
           (stubWorld "0.0005" sampleNow) (query3 "doge" "usdc" "1")).
  vm_compute. reflexivity.
Defined.

(** X9 on a live entry: the sample request again, at the same instant. *)
Lemma handler_refines_uncached_witness :
  @handleTokenPrice plainRuntime cacheAfterUsdc
    (stubWorld "0.0006" sampleNow) (query3 "usdc" "eth" "1")
  = ({| status := 200;
        body := ResultJSON
          (TokenPairCache_Get cacheAfterUsdc sampleNow "usdc" "eth" "1").1 |},
     cacheAfterUsdc).
Proof.
  apply (proj1 (proj2 (proj2
           (@handler_refines_uncached plainRuntime cacheAfterUsdc
              (stubWorld "0.0006" sampleNow) (query3 "usdc" "eth" "1"))))).
  - vm_compute. reflexivity.
  - vm_compute. discriminate.
Defined.

(** X10 on the sample request three hours later, the page then showing
    0.0007: the quote stored is the new one. *)
Lemma handler_refreshes_stale_entry_witness :
  let w := stubWorld "0.0007" (sampleNow + 3 * Hour) in
  let q := query3 "usdc" "eth" "1" in
  let run := @handleTokenPrice plainRuntime cacheAfterUsdc w q in
  run.1 = @handleTokenPrice_uncached plainRuntime w q
  /\ Amount <$> (Output <$> (CacheEntry_Result <$>
       entryAt run.2 "usdc" "eth" "1")) = Some (decimal 7 4)
  /\ ExpiresAt <$> entryAt run.2 "usdc" "eth" "1"
     = Some (sampleNow + 5 * Hour).
Proof.
  intros w q run.
  assert (Hstale : entryAt cacheAfterUsdc "usdc" "eth" "1" =
            Some {| CacheEntry_Result := sampleQuote;
                    ExpiresAt := sampleNow + 2 * Hour |})
    by (vm_compute; reflexivity).
  assert (Hexp : sampleNow + 2 * Hour < now_Get w)
    by (vm_compute; reflexivity).
  assert (Hok : status run.1 = 200) by (vm_compute; reflexivity).
  pose proof (@handler_refreshes_stale_entry plainRuntime cacheAfterUsdc
                run.2 w q run.1 _ Hstale Hexp (surjective_pairing run) Hok)
    as [Hfresh _].
  split; [exact Hfresh|].
  split; vm_compute; reflexivity.
Defined.

(** X12 on a page that reads back 0 for the input. *)
Lemma zero_input_rate_not_finite_witness :
  exists r,
    @fetchTokenPrice plainRuntime (zeroInputWorld "0.0005" sampleNow)
      "usdc" "eth" "0" (targetURL_of USDC_ADDRESS WETH_ADDRESS) = Ok r
    /\ Amount (Input r) = S754_zero false
    /\ notFinite (ExchangeRate r) = true.
Proof.
  eexists. split; [vm_compute; reflexivity|]. split; [reflexivity|].
  apply (@zero_input_rate_not_finite plainRuntime
           (zeroInputWorld "0.0005" sampleNow) "usdc" "eth" "0"
           (targetURL_of USDC_ADDRESS WETH_ADDRESS) _ false).
  - vm_compute. reflexivity.
  - reflexivity.
Defined.

(** X15 on usdt to wmon against usdc to mon. *)
Lemma alias_requests_agree_witness :
  let w := stubWorld "12.349" sampleNow in
  status (@handleTokenPrice_uncached plainRuntime w (query3 "usdt" "wmon" "1"))
  = status (@handleTokenPrice_uncached plainRuntime w (query3 "usdc" "mon" "1")).
Proof.
  intros w.
  apply (@alias_requests_agree plainRuntime w
           (query3 "usdt" "wmon" "1") (query3 "usdc" "mon" "1")
           USDC_ADDRESS MON_ADDRESS);
    vm_compute; reflexivity.
Defined.

(** X16 on the sample request. *)
Lemma handler_200_quote_is_stored_witness :
  exists entry,
    entryAt cacheAfterUsdc "usdc" "eth" "1" = Some entry
    /\ CacheEntry_Result entry = sampleQuote.
Proof.
  destruct (@handler_200_quote_is_stored plainRuntime NewTokenPairCache
              cacheAfterUsdc (stubWorld "0.0005" sampleNow)
              (query3 "usdc" "eth" "1")
              {| status := 200; body := ResultJSON sampleQuote |}
              ltac:(vm_compute; reflexivity) eq_refl)
    as (entry & Hentry & _ & Hsent).
  exists entry. split.
  - exact Hentry.
  - symmetry. apply Hsent. reflexivity.
Defined.

(** X6 on a page that reads back 0 for the input: the rate is an infinity,
    the response is a 200 with an empty body, and the quote is cached. *)
Lemma handler_status_classes_witness :
  let run := @handleTokenPrice plainRuntime NewTokenPairCache
               (zeroInputWorld "0.0005" sampleNow) (query3 "usdc" "eth" "0") in
  body run.1 = EmptyBody
  /\ status run.1 = 200
  /\ exists entry,
       entryAt run.2 "usdc" "eth" "0" = Some entry
       /\ jsonEncodable (CacheEntry_Result entry) = false.
Proof.
  intros run.
  assert (Hb : body run.1 = EmptyBody) by (vm_compute; reflexivity).
  split; [exact Hb|].
  exact (proj1 (proj2 (proj2 (proj2
           (@handler_status_classes plainRuntime NewTokenPairCache
              (zeroInputWorld "0.0005" sampleNow)
              (query3 "usdc" "eth" "0"))))) Hb).
Defined.
